(** * A shallow embedding of the Telegram automation bot (src/main.py)

    The bot is one Python module: a few module globals, a filename
    sanitizer, an admin gate, the asynchronous handlers and the handler
    registry built in [main].  The handlers are embedded as programs of a
    small resumption monad [coro] whose operations are the things the
    Python code does: reading and writing the module globals, logging,
    searching a regular expression, drawing a random number, and awaiting
    a call of the Bot API.  The same program is given two readings: a
    sequential one ([run], one handler from start to end against an oracle
    for the outside world) and a cooperative one ([pool_step], several
    handlers of one asyncio event loop that interleave at their [await]s).

    Python [str] values are represented by [string], read as the UTF-8
    bytes of the text.  The sanitizer keeps ASCII characters only, so on
    its results bytes and code points coincide. *)

From Stdlib Require Import ZArith Lia Ascii.
From stdpp Require Import gmap strings list pretty.

Open Scope string_scope.
Open Scope Z_scope.
Open Scope list_scope.

(** * Strings *)

Module PyStr.

Definition nl : string := String (Ascii.ascii_of_nat 10) EmptyString.

Fixpoint map (f : ascii -> ascii) (s : string) : string :=
  match s with
  | EmptyString => EmptyString
  | String c s' => String (f c) (map f s')
  end.

Fixpoint filter (p : ascii -> bool) (s : string) : string :=
  match s with
  | EmptyString => EmptyString
  | String c s' => if p c then String c (filter p s') else filter p s'
  end.

(** [s[:n]] *)
Fixpoint take (n : nat) (s : string) : string :=
  match n, s with
  | O, _ => EmptyString
  | _, EmptyString => EmptyString
  | S n', String c s' => String c (take n' s')
  end.

(** Every character of [s] satisfies [p]. *)
Fixpoint all (p : ascii -> bool) (s : string) : bool :=
  match s with
  | EmptyString => true
  | String c s' => p c && all p s'
  end.

(** [c in s] *)
Fixpoint mem (c : ascii) (s : string) : bool :=
  match s with
  | EmptyString => false
  | String d s' => Ascii.eqb c d || mem c s'
  end.

(** [s.startswith(p)] *)
Fixpoint startswith (p s : string) : bool :=
  match p, s with
  | EmptyString, _ => true
  | String a p', String b s' => Ascii.eqb a b && startswith p' s'
  | String _ _, EmptyString => false
  end.

(** [p in s] for strings: [p] occurs somewhere in [s]. *)
Fixpoint contains (p s : string) : bool :=
  startswith p s ||
  match s with
  | EmptyString => false
  | String _ s' => contains p s'
  end.

(** [str.lower()] restricted to the ASCII letters. *)
Definition lower_ascii (c : ascii) : ascii :=
  let n := Ascii.N_of_ascii c in
  if ((65 <=? n) && (n <=? 90))%N then Ascii.ascii_of_N (n + 32) else c.

Definition lower (s : string) : string := map lower_ascii s.

End PyStr.

(** * Regular expressions of the sanitizer

    [sanitize_filename] uses two patterns, both a single bracket
    expression, the second one negated and under [+].  A bracket
    expression is kept as the list of its items. *)

Module Re.

Inductive item :=
| Chr (c : ascii)
| Range (lo hi : ascii).

Record class := { negated : bool; items : list item }.

Definition item_matches (c : ascii) (i : item) : bool :=
  match i with
  | Chr d => Ascii.eqb c d
  | Range lo hi =>
      ((Ascii.N_of_ascii lo <=? Ascii.N_of_ascii c) &&
       (Ascii.N_of_ascii c <=? Ascii.N_of_ascii hi))%N
  end.

Definition class_matches (k : class) (c : ascii) : bool :=
  xorb (negated k) (existsb (item_matches c) (items k)).

(** [re.sub("[...]", repl, s)]: every character of the class is one
    match and is replaced by [repl]. *)
Fixpoint sub_class (k : class) (repl : string) (s : string) : string :=
  match s with
  | EmptyString => EmptyString
  | String c s' =>
      if class_matches k c then repl +:+ sub_class k repl s'
      else String c (sub_class k repl s')
  end.

(** [re.sub("[...]+", repl, s)]: every maximal run of characters of the
    class is one match.  [in_run] tells that the previous character
    belonged to the match being skipped. *)
Fixpoint sub_class_plus_from (k : class) (repl : string) (in_run : bool)
    (s : string) : string :=
  match s with
  | EmptyString => EmptyString
  | String c s' =>
      if class_matches k c then
        if in_run then sub_class_plus_from k repl true s'
        else repl +:+ sub_class_plus_from k repl true s'
      else String c (sub_class_plus_from k repl false s')
  end.

Definition sub_class_plus (k : class) (repl s : string) : string :=
  sub_class_plus_from k repl false s.

End Re.

(** * Utilities (src/main.py, lines 73-80) *)

(** [r"[\\/]"] *)
Definition path_separators : Re.class :=
  {| Re.negated := false;
     Re.items := [Re.Chr "\"%char; Re.Chr "/"%char] |}.

(** [r"[^A-Za-z0-9_.\-() ]+"], without the [+] *)
Definition illegal_characters : Re.class :=
  {| Re.negated := true;
     Re.items := [Re.Range "A"%char "Z"%char; Re.Range "a"%char "z"%char;
                  Re.Range "0"%char "9"%char; Re.Chr "_"%char;
                  Re.Chr "."%char; Re.Chr "-"%char; Re.Chr "("%char;
                  Re.Chr ")"%char; Re.Chr " "%char] |}.

Definition sanitize_filename (name : string) : string :=
  let name := Re.sub_class path_separators "_" name in
  let name := Re.sub_class_plus illegal_characters "" name in
  PyStr.take 200 name.

Definition is_admin (OWNER_ID : option Z) (user_id : Z) : bool :=
  match OWNER_ID with
  | None => false
  | Some owner => user_id =? owner
  end.

(** * Telegram objects

    The fields of the library's objects that the module reads.

    [command] is the command of a message that starts with a bot-command
    entity (what [filters.COMMAND] and [CommandHandler] look at): the text
    of the entity as it was typed, without the slash and without a suffix
    [@name] that names this bot; a command addressed to another bot keeps
    its suffix and so equals no registered name.

    An update carries one of: a new message ([update.message]), an edited
    message ([update.edited_message]), a channel post, new or edited
    ([update.channel_post], [update.edited_channel_post]), a message of a
    business account, new or edited ([update.business_message],
    [update.edited_business_message], in the versions of the library that
    know them), or a callback query.  Only in the first case is
    [update.message] set; the library's message filters look at
    [update.effective_message], which is the message of any of the first
    four.  A channel post has no sender: [update.effective_user] is
    [None] and its [from_user] is never read.  Updates of other kinds
    match no handler registered in [main] and are left out. *)

Record User := { user_id : Z; username : option string }.

Record PhotoSize := { photo_file_id : string }.

Record Document := {
  doc_file_id : string;
  doc_file_name : option string;
  doc_file_size : option Z
}.

Record Message := {
  chat_id : Z;
  from_user : User;
  text : option string;
  command : option string;
  photo : list PhotoSize;
  document : option Document
}.

Record CallbackQuery := { query_from : User; data : option string }.

Inductive Update :=
| MessageUpdate (m : Message)
| EditedMessageUpdate (m : Message)
| ChannelPostUpdate (m : Message)
| BusinessMessageUpdate (m : Message)
| CallbackUpdate (q : CallbackQuery).

(** [update.effective_user]: the sender of the message or of the callback
    query; [None] for a channel post. *)
Definition effective_user (update : Update) : option User :=
  match update with
  | MessageUpdate m | EditedMessageUpdate m | BusinessMessageUpdate m =>
      Some (from_user m)
  | ChannelPostUpdate _ => None
  | CallbackUpdate q => Some (query_from q)
  end.

(** [update.effective_message] for the updates that carry a message of
    their own. *)
Definition effective_message (update : Update) : option Message :=
  match update with
  | MessageUpdate m | EditedMessageUpdate m | ChannelPostUpdate m
  | BusinessMessageUpdate m => Some m
  | CallbackUpdate _ => None
  end.

(** What [get_file] returns. *)
Record File := { file_id : string }.

(** [PHOTOS_DIR] and [FILES_DIR] (src/main.py, lines 41-43); a path is a
    directory and a file name in it. *)
Inductive directory := PHOTOS_DIR | FILES_DIR.

Definition keyboard := list (list (string * string)).

(** * Module globals (src/main.py, lines 27-36 and 60-68)

    [OWNER_ID] and [KEYWORDS] are set while the module is loaded and never
    assigned afterwards; [AUTO_FORWARD] and [BOT_STATS] are assigned by
    handlers. *)

Record Config := {
  OWNER_ID : option Z;
  KEYWORDS : list (string * list string)
}.

Record Globals := {
  AUTO_FORWARD : bool;
  BOT_STATS : gmap string Z
}.

Definition MAX_FILE_SIZE : Z := 20 * 1024 * 1024.

(** [BOT_STATS = {"photos": 0, "documents": 0}] *)
Definition initial_globals (auto_forward : bool) : Globals :=
  {| AUTO_FORWARD := auto_forward;
     BOT_STATS := <["photos" := 0]> (<["documents" := 0]> ∅) |}.

(** [OWNER_ID = int(OWNER_ID) if OWNER_ID and OWNER_ID.isdigit() else None]
    for a value made of ASCII characters. *)
Definition is_digit (c : ascii) : bool :=
  let n := N_of_ascii c in ((48 <=? n) && (n <=? 57))%N.

Fixpoint int_of_digits (acc : Z) (s : string) : Z :=
  match s with
  | EmptyString => acc
  | String c s' => int_of_digits (10 * acc + (Z.of_N (N_of_ascii c) - 48)) s'
  end.

Definition load_OWNER_ID (env : option string) : option Z :=
  match env with
  | Some (String c s' as s) =>
      if PyStr.all is_digit s then Some (int_of_digits 0 s) else None
  | _ => None
  end.

(** [AUTO_FORWARD = os.getenv("AUTO_FORWARD", "1").lower() in ("1", "true", "yes")] *)
Definition load_AUTO_FORWARD (env : option string) : bool :=
  let v := PyStr.lower (default "1" env) in
  bool_decide (v ∈ ["1"; "true"; "yes"]).

(** * Effects

    [call] lists the awaited operations of the Bot API, [resp] what each
    gives back.  [exn] lists the exceptions a handler can end with;
    [NetworkError] stands for any exception raised inside an awaited
    call. *)

Inductive exn :=
| AttributeError
| IndexError
| TypeError
| KeyError (key : string)
| ReError (pattern : string)
| NetworkError.

Inductive call :=
| reply_text (chat : Z) (text : string) (parse_mode : option string)
    (reply_markup : option keyboard)
| get_file (remote_id : string)
| download_to_drive (f : File) (dir : directory) (filename : string)
| send_photo (chat : Z) (photo : string) (caption : string)
| send_document (chat : Z) (document : string) (caption : string)
| answer
| edit_message_text (text : string).

Definition resp (c : call) : Type :=
  match c with
  | get_file _ => File
  | _ => unit
  end.

Inductive level := INFO | ERROR.

(** A handler between two operations.  [Await] is the only suspension
    point: everything else runs without giving up the event loop.  An
    operation that can fail hands the failure to its continuation: a
    missing key of [BOT_STATS], a pattern that does not compile, an
    exception raised inside the awaited call. *)
Inductive coro (A : Type) : Type :=
| Ret (a : A)
| Raise (e : exn)
| ReadFlag (k : bool -> coro A)
| WriteFlag (b : bool) (k : coro A)
| ReadStat (key : string) (k : option Z -> coro A)
| WriteStat (key : string) (v : Z) (k : coro A)
| Log (lvl : level) (msg : string) (k : coro A)
| Search (pattern subject : string) (k : option bool -> coro A)
| RandBelow (n : nat) (k : nat -> coro A)
| Await (c : call) (k : exn + resp c -> coro A).

Arguments Ret {A} a.
Arguments Raise {A} e.
Arguments ReadFlag {A} k.
Arguments WriteFlag {A} b k.
Arguments ReadStat {A} key k.
Arguments WriteStat {A} key v k.
Arguments Log {A} lvl msg k.
Arguments Search {A} pattern subject k.
Arguments RandBelow {A} n k.
Arguments Await {A} c k.

Fixpoint coro_bind {A B} (f : A -> coro B) (c : coro A) : coro B :=
  match c with
  | Ret a => f a
  | Raise e => Raise e
  | ReadFlag k => ReadFlag (fun b => coro_bind f (k b))
  | WriteFlag b k => WriteFlag b (coro_bind f k)
  | ReadStat key k => ReadStat key (fun v => coro_bind f (k v))
  | WriteStat key v k => WriteStat key v (coro_bind f k)
  | Log lvl msg k => Log lvl msg (coro_bind f k)
  | Search p s k => Search p s (fun b => coro_bind f (k b))
  | RandBelow n k => RandBelow n (fun i => coro_bind f (k i))
  | Await c k => Await c (fun r => coro_bind f (k r))
  end.

#[global] Instance coro_ret : MRet coro := @Ret.
#[global] Instance coro_mbind : MBind coro := @coro_bind.
#[global] Instance coro_throw : MThrow exn coro := @Raise.

(** [try: c except Exception as e: h(e)] *)
Fixpoint catch {A} (c : coro A) (h : exn -> coro A) : coro A :=
  match c with
  | Ret a => Ret a
  | Raise e => h e
  | ReadFlag k => ReadFlag (fun b => catch (k b) h)
  | WriteFlag b k => WriteFlag b (catch k h)
  | ReadStat key k => ReadStat key (fun v => catch (k v) h)
  | WriteStat key v k => WriteStat key v (catch k h)
  | Log lvl msg k => Log lvl msg (catch k h)
  | Search p s k => Search p s (fun b => catch (k b) h)
  | RandBelow n k => RandBelow n (fun i => catch (k i) h)
  | Await c k => Await c (fun r => catch (k r) h)
  end.

Definition await (c : call) : coro (resp c) :=
  Await c (fun r => match r with inl e => Raise e | inr v => Ret v end).
Definition read_AUTO_FORWARD : coro bool := ReadFlag Ret.
Definition write_AUTO_FORWARD (b : bool) : coro unit := WriteFlag b (Ret tt).
Definition read_BOT_STATS (key : string) : coro Z :=
  ReadStat key (from_option Ret (Raise (KeyError key))).
Definition write_BOT_STATS (key : string) (v : Z) : coro unit :=
  WriteStat key v (Ret tt).
Definition logger_info (msg : string) : coro unit := Log INFO msg (Ret tt).
Definition logger_exception (msg : string) : coro unit := Log ERROR msg (Ret tt).
Definition re_search (pattern subject : string) : coro bool :=
  Search pattern subject (from_option Ret (Raise (ReError pattern))).

(** [random.choice(seq)] *)
Definition random_choice (seq : list string) : coro string :=
  match seq with
  | [] => Raise IndexError
  | _ =>
      i ← RandBelow (length seq) Ret;
      match seq !! i with
      | Some x => Ret x
      | None => Raise IndexError
      end
  end.

(** * The outside world and the sequential reading

    [PyLib] holds the two library functions whose result depends only on
    their arguments: [str.lower] and [re.search] (as a truth value; [None]
    when the pattern does not compile and [re.error] is raised).  An
    [Oracle] answers the awaited calls and the random draws; both are
    indexed by the number of answers given so far. *)

Class PyLib := {
  str_lower : string -> string;
  regex_search : string -> string -> option bool
}.

Record Oracle := {
  api : nat -> forall c : call, exn + resp c;
  dice : nat -> nat
}.

Inductive event :=
| Called (c : call)
| Logged (lvl : level) (msg : string)
| Searched (pattern subject : string)
| Drew (n : nat) (i : nat).

Record Result (A : Type) := {
  outcome : exn + A;
  globals_after : Globals;
  trace : list event
}.

Arguments outcome {A} r.
Arguments globals_after {A} r.
Arguments trace {A} r.

Definition emit {A} (e : event) (r : Result A) : Result A :=
  {| outcome := outcome r; globals_after := globals_after r;
     trace := e :: trace r |}.

Definition stop {A} (o : exn + A) (g : Globals) : Result A :=
  {| outcome := o; globals_after := g; trace := [] |}.

Definition set_AUTO_FORWARD (b : bool) (g : Globals) : Globals :=
  {| AUTO_FORWARD := b; BOT_STATS := BOT_STATS g |}.

Definition set_BOT_STATS (key : string) (v : Z) (g : Globals) : Globals :=
  {| AUTO_FORWARD := AUTO_FORWARD g; BOT_STATS := <[key := v]> (BOT_STATS g) |}.

Fixpoint run `{PyLib} {A} (c : coro A) (w : Oracle) (n : nat) (g : Globals)
    : Result A :=
  match c with
  | Ret a => stop (inr a) g
  | Raise e => stop (inl e) g
  | ReadFlag k => run (k (AUTO_FORWARD g)) w n g
  | WriteFlag b k => run k w n (set_AUTO_FORWARD b g)
  | ReadStat key k => run (k (BOT_STATS g !! key)) w n g
  | WriteStat key v k => run k w n (set_BOT_STATS key v g)
  | Log lvl msg k => emit (Logged lvl msg) (run k w n g)
  | Search p s k => emit (Searched p s) (run (k (regex_search p s)) w n g)
  | RandBelow m k =>
      let i := (dice w n mod m)%nat in
      emit (Drew m i) (run (k i) w (S n) g)
  | Await c k => emit (Called c) (run (k (api w n c)) w (S n) g)
  end.

(** The calls of the Bot API in a trace, in order. *)
Definition calls (tr : list event) : list call :=
  omap (fun e => match e with Called c => Some c | _ => None end) tr.

(** The patterns handed to [re.search] in a trace, with their subject. *)
Definition searches (tr : list event) : list (string * string) :=
  omap (fun e => match e with Searched p s => Some (p, s) | _ => None end) tr.

(** The names of the module's handler functions. *)
Module Fn.
Inductive name :=
| start | help_command | getmyid | toggleforward | getstats | menu
| handle_buttons | handle_photo | handle_document | keyword_reply
| handle_message.

#[global] Instance name_eq_dec : EqDecision name.
Proof. solve_decision. Defined.
End Fn.

(** * The handlers (src/main.py, lines 82-222) *)

Section Handlers.

Context `{PyLib} (cfg : Config).

(** [update.message], on which every message handler calls a method; it
    is [None] unless the update is a new message. *)
Definition the_message (update : Update) : coro Message :=
  match update with
  | MessageUpdate m => Ret m
  | _ => Raise AttributeError
  end.

(** [update.effective_user], of which a handler reads an attribute *)
Definition the_effective_user (update : Update) : coro User :=
  from_option Ret (Raise AttributeError) (effective_user update).

(** [f"{x}"] for a value that may be [None] *)
Definition fmt_opt (s : option string) : string := default "None" s.

Definition admin_only (func : Update -> coro unit) (update : Update)
    : coro unit :=
  user ← the_effective_user update;
  if negb (is_admin (OWNER_ID cfg) (user_id user)) then
    m ← the_message update;
    await (reply_text (chat_id m) "❌ Admin only command." None None);;
    Ret tt
  else
    func update.

Definition start (update : Update) : coro unit :=
  m ← the_message update;
  await (reply_text (chat_id m)
           ("✅ Bot is running!" +:+ PyStr.nl +:+
            "Type /help to see available commands.") None None).

Definition help_command (update : Update) : coro unit :=
  m ← the_message update;
  await (reply_text (chat_id m)
           ("/start - Start bot" +:+ PyStr.nl +:+
            "/help - Show help" +:+ PyStr.nl +:+
            "/menu - Open menu" +:+ PyStr.nl +:+
            "/getmyid - Show your user ID" +:+ PyStr.nl +:+ PyStr.nl +:+
            "Admin only:" +:+ PyStr.nl +:+
            "/toggleforward - Toggle auto-forward" +:+ PyStr.nl +:+
            "/getstats - Show bot stats") None None).

Definition getmyid (update : Update) : coro unit :=
  m ← the_message update;
  user ← the_effective_user update;
  await (reply_text (chat_id m)
           ("🆔 Your ID: `" +:+ pretty (user_id user) +:+ "`")
           (Some "Markdown") None).

(** The function under the decorator at line 119. *)
Definition toggleforward_body (update : Update) : coro unit :=
  b ← read_AUTO_FORWARD;
  write_AUTO_FORWARD (negb b);;
  m ← the_message update;
  b ← read_AUTO_FORWARD;
  await (reply_text (chat_id m)
           ("Auto-forward " +:+ (if b : bool then "✅ ON" else "❌ OFF")) None None).

Definition toggleforward : Update -> coro unit := admin_only toggleforward_body.

Definition getstats_body (update : Update) : coro unit :=
  m ← the_message update;
  photos ← read_BOT_STATS "photos";
  documents ← read_BOT_STATS "documents";
  await (reply_text (chat_id m)
           ("📊 Stats" +:+ PyStr.nl +:+ "Photos: " +:+ pretty photos +:+
            PyStr.nl +:+ "Files: " +:+ pretty documents) None None).

Definition getstats : Update -> coro unit := admin_only getstats_body.

Definition menu (update : Update) : coro unit :=
  let keyboard := [[("ℹ About", "about")]; [("📞 Contact", "contact")]] in
  m ← the_message update;
  await (reply_text (chat_id m) "📋 Menu" None (Some keyboard)).

Definition handle_buttons (update : Update) : coro unit :=
  match update with
  | CallbackUpdate query =>
      await answer;;
      if bool_decide (data query = Some "about") then
        await (edit_message_text
                 ("🤖 Telegram Automation Bot" +:+ PyStr.nl +:+ "Developed by Efren"))
      else if bool_decide (data query = Some "contact") then
        await (edit_message_text "📞 Contact: @your_username")
      else Ret tt
  | _ => Raise AttributeError
  end.

(** [if OWNER_ID and AUTO_FORWARD: await send(OWNER_ID)]: the owner is
    tested first, by truth value ([None] and [0] are false), and the flag
    is read only when that test passes. *)
Definition forward_if_enabled (send : Z -> call) : coro unit :=
  match OWNER_ID cfg with
  | Some owner =>
      if negb (owner =? 0) then
        enabled ← read_AUTO_FORWARD;
        if enabled : bool then await (send owner);; Ret tt else Ret tt
      else Ret tt
  | None => Ret tt
  end.

Definition handle_photo (update : Update) : coro unit :=
  m ← the_message update;
  let user := from_user m in
  photo ← from_option Ret (Raise IndexError) (last (photo m));
  file ← await (get_file (photo_file_id photo));
  let filename :=
    sanitize_filename
      ("photo_" +:+ pretty (user_id user) +:+ "_" +:+ file_id file +:+ ".jpg") in
  await (download_to_drive file PHOTOS_DIR filename);;
  n ← read_BOT_STATS "photos";
  write_BOT_STATS "photos" (n + 1);;
  logger_info
    ("Photo received from " +:+ fmt_opt (username user) +:+ " (" +:+
     pretty (user_id user) +:+ "): " +:+ filename);;
  forward_if_enabled
    (fun owner =>
       send_photo owner (photo_file_id photo)
         ("📸 Photo from " +:+ pretty (user_id user)));;
  await (reply_text (chat_id m) ("📸 Saved as `" +:+ filename +:+ "`")
           (Some "Markdown") None).

Definition handle_document (update : Update) : coro unit :=
  m ← the_message update;
  doc ← from_option Ret (Raise AttributeError) (document m);
  let user := from_user m in
  size ← from_option Ret (Raise TypeError) (doc_file_size doc);
  if size >? MAX_FILE_SIZE then
    await (reply_text (chat_id m) "⚠️ File too large." None None);;
    Ret tt
  else
    file ← await (get_file (doc_file_id doc));
    let filename :=
      sanitize_filename
        (pretty (user_id user) +:+ "_" +:+ fmt_opt (doc_file_name doc)) in
    await (download_to_drive file FILES_DIR filename);;
    n ← read_BOT_STATS "documents";
    write_BOT_STATS "documents" (n + 1);;
    logger_info
      ("Document received from " +:+ fmt_opt (username user) +:+ " (" +:+
       pretty (user_id user) +:+ "): " +:+ filename);;
    forward_if_enabled
      (fun owner =>
         send_document owner (doc_file_id doc)
           ("📄 File from " +:+ pretty (user_id user)));;
    await (reply_text (chat_id m) ("📄 Saved `" +:+ filename +:+ "`")
             (Some "Markdown") None).

(** The [for] loop of [keyword_reply] over [KEYWORDS.items()]. *)
Fixpoint keyword_scan (update : Update) (m : Message) (text : string)
    (table : list (string * list string)) : coro unit :=
  match table with
  | [] => Ret tt
  | (pattern, replies) :: rest =>
      found ← re_search pattern text;
      if found : bool then
        reply ← random_choice replies;
        await (reply_text (chat_id m) reply None None);;
        user ← the_effective_user update;
        logger_info
          ("Keyword matched from " +:+ fmt_opt (username user) +:+ ": " +:+ text);;
        Ret tt
      else keyword_scan update m text rest
  end.

Definition keyword_reply (update : Update) : coro unit :=
  m ← the_message update;
  let text := str_lower (default "" (text m)) in
  keyword_scan update m text (KEYWORDS cfg).

Definition error_handler (update : Update) (error : exn) : coro unit :=
  logger_exception "Bot error:".

Definition handle_message (update : Update) : coro unit :=
  user ← the_effective_user update;
  m ← the_message update;
  logger_info
    ("Message from " +:+ fmt_opt (username user) +:+ ": " +:+ fmt_opt (text m));;
  await (reply_text (chat_id m) "Got your message!" None None).

Definition body (f : Fn.name) : Update -> coro unit :=
  match f with
  | Fn.start => start
  | Fn.help_command => help_command
  | Fn.getmyid => getmyid
  | Fn.toggleforward => toggleforward
  | Fn.getstats => getstats
  | Fn.menu => menu
  | Fn.handle_buttons => handle_buttons
  | Fn.handle_photo => handle_photo
  | Fn.handle_document => handle_document
  | Fn.keyword_reply => keyword_reply
  | Fn.handle_message => handle_message
  end.

End Handlers.

(** * The registry of [main] (src/main.py, lines 227-250)

    The library offers an update to the handlers in the order of their
    registration and runs the first one whose check accepts it; an
    exception of the handler goes to the error handler.

    The checks are the library's.  A [CommandHandler] accepts a new or an
    edited message that starts with its command, compared without regard
    to case.  A [MessageHandler] applies its filter to the effective
    message, so it accepts edited messages, channel posts and messages of
    business accounts as well.  A [CallbackQueryHandler] without pattern
    accepts every callback query. *)

Inductive filter :=
| PHOTO
| Document_ALL
| TEXT
| COMMAND
| FAnd (f g : filter)
| FNot (f : filter).

Fixpoint filter_check (f : filter) (m : Message) : bool :=
  match f with
  | PHOTO => negb (bool_decide (photo m = []))
  | Document_ALL => bool_decide (is_Some (document m))
  | TEXT => negb (bool_decide (default "" (text m) = ""))
  | COMMAND => bool_decide (is_Some (command m))
  | FAnd f g => filter_check f m && filter_check g m
  | FNot f => negb (filter_check f m)
  end.

Inductive handler :=
| CommandHandler (cmd : string) (callback : Fn.name)
| CallbackQueryHandler (callback : Fn.name)
| MessageHandler (f : filter) (callback : Fn.name).

Definition callback_of (h : handler) : Fn.name :=
  match h with
  | CommandHandler _ f | CallbackQueryHandler f | MessageHandler _ f => f
  end.

Definition check_update (h : handler) (update : Update) : bool :=
  match h, update with
  | CommandHandler cmd _, (MessageUpdate m | EditedMessageUpdate m) =>
      bool_decide (PyStr.lower <$> command m = Some (PyStr.lower cmd))
  | CallbackQueryHandler _, CallbackUpdate _ => true
  | MessageHandler f _,
    (MessageUpdate m | EditedMessageUpdate m | ChannelPostUpdate m
    | BusinessMessageUpdate m) =>
      filter_check f m
  | _, _ => false
  end.

Definition main_handlers : list handler :=
  [ CommandHandler "start" Fn.start;
    CommandHandler "help" Fn.help_command;
    CommandHandler "menu" Fn.menu;
    CommandHandler "getmyid" Fn.getmyid;
    CommandHandler "toggleforward" Fn.toggleforward;
    CommandHandler "getstats" Fn.getstats;
    CallbackQueryHandler Fn.handle_buttons;
    MessageHandler PHOTO Fn.handle_photo;
    MessageHandler Document_ALL Fn.handle_document;
    MessageHandler (FAnd TEXT (FNot COMMAND)) Fn.keyword_reply ].

Definition dispatch (update : Update) : option Fn.name :=
  callback_of <$> List.find (fun h => check_update h update) main_handlers.

Definition process_update `{PyLib} (cfg : Config) (update : Update) : coro unit :=
  match dispatch update with
  | Some f => catch (body cfg f update) (error_handler update)
  | None => Ret tt
  end.

(** * The cooperative reading

    The handlers of one event loop interleave at their [await]s only.  A
    task is a handler stopped at its next operation; a turn of the loop
    hands one task the answer to the call it awaits and lets it run to its
    next [await], its return or its exception. *)

Fixpoint advance `{PyLib} {A} (c : coro A) (d : nat -> nat) (i : nat) (g : Globals)
    : coro A * Globals :=
  match c with
  | Ret _ | Raise _ | Await _ _ => (c, g)
  | ReadFlag k => advance (k (AUTO_FORWARD g)) d i g
  | WriteFlag b k => advance k d i (set_AUTO_FORWARD b g)
  | ReadStat key k => advance (k (BOT_STATS g !! key)) d i g
  | WriteStat key v k => advance k d i (set_BOT_STATS key v g)
  | Log _ _ k => advance k d i g
  | Search p s k => advance (k (regex_search p s)) d i g
  | RandBelow m k => advance (k (d i mod m)%nat) d (S i) g
  end.

Record Turn := {
  who : nat;
  answers : forall c : call, exn + resp c;
  draws : nat -> nat
}.

Definition finished {A} (c : coro A) : bool :=
  match c with
  | Ret _ | Raise _ => true
  | _ => false
  end.

Definition resume {A} (c : coro A) (t : Turn) : coro A :=
  match c with
  | Await c k => k (answers t c)
  | _ => c
  end.

Definition Pool : Type := Globals * list (coro unit).

(** One turn; [None] when the turn names no task or a finished one. *)
Definition pool_step `{PyLib} (t : Turn) (p : Pool) : option Pool :=
  let '(g, tasks) := p in
  match tasks !! who t with
  | Some c =>
      if finished c then None
      else
        let '(c', g') := advance (resume c t) (draws t) 0 g in
        Some (g', <[who t := c']> tasks)
  | None => None
  end.

Fixpoint pool_run `{PyLib} (schedule : list Turn) (p : Pool) : option Pool :=
  match schedule with
  | [] => Some p
  | t :: rest =>
      match pool_step t p with
      | Some p' => pool_run rest p'
      | None => None
      end
  end.

(** ** The discipline of a counter

    [quiet key c]: [c] never assigns [BOT_STATS[key]].
    [bumping key v c]: [c] has read [v] from [BOT_STATS[key]] and, unless
    it raises, assigns [v + 1] to it before it awaits or returns, and is
    quiet afterwards.
    [pending key c]: unless it raises, [c] goes through exactly one such
    read-and-assign before it returns; a read of the counter either starts
    it or is followed by it. *)

Fixpoint quiet {A} (key : string) (c : coro A) : Prop :=
  match c with
  | Ret _ | Raise _ => True
  | ReadFlag k => forall b, quiet key (k b)
  | WriteFlag _ k => quiet key k
  | ReadStat _ k => forall o, quiet key (k o)
  | WriteStat key' _ k => key' <> key /\ quiet key k
  | Log _ _ k => quiet key k
  | Search _ _ k => forall o, quiet key (k o)
  | RandBelow _ k => forall i, quiet key (k i)
  | Await _ k => forall r, quiet key (k r)
  end.

Fixpoint bumping {A} (key : string) (v : Z) (c : coro A) : Prop :=
  match c with
  | Ret _ | Await _ _ => False
  | Raise _ => True
  | ReadFlag k => forall b, bumping key v (k b)
  | WriteFlag _ k => bumping key v k
  | ReadStat _ k => forall o, bumping key v (k o)
  | WriteStat key' v' k =>
      if decide (key' = key) then v' = v + 1 /\ quiet key k
      else bumping key v k
  | Log _ _ k => bumping key v k
  | Search _ _ k => forall o, bumping key v (k o)
  | RandBelow _ k => forall i, bumping key v (k i)
  end.

Fixpoint pending {A} (key : string) (c : coro A) : Prop :=
  match c with
  | Ret _ => False
  | Raise _ => True
  | ReadFlag k => forall b, pending key (k b)
  | WriteFlag _ k => pending key k
  | ReadStat key' k =>
      forall o,
        pending key (k o) \/
        (key' = key /\ exists v, o = Some v /\ bumping key v (k o))
  | WriteStat key' _ k => key' <> key /\ pending key k
  | Log _ _ k => pending key k
  | Search _ _ k => forall o, pending key (k o)
  | RandBelow _ k => forall i, pending key (k i)
  | Await _ k => forall r, pending key (k r)
  end.

(** ** The invariant of a pool

    Each task carries a ghost tag: [Todo] for an upload that has not
    counted itself yet, [Bumped] for one that has, [Other] for a task
    that never touches the counter.  The counter is its initial value
    plus the number of [Bumped] tags. *)

Inductive tag := Todo | Bumped | Other.

Definition fits (key : string) (tg : tag) (c : coro unit) : Prop :=
  match tg with
  | Todo => pending key c
  | Bumped | Other => quiet key c
  end.

Definition later (a b : tag) : Prop :=
  match a, b with
  | Todo, Todo | Todo, Bumped | Bumped, Bumped | Other, Other => True
  | _, _ => False
  end.

Fixpoint bumped (tags : list tag) : nat :=
  match tags with
  | [] => O
  | Bumped :: tags => S (bumped tags)
  | _ :: tags => bumped tags
  end.

Fixpoint todo (tags : list tag) : nat :=
  match tags with
  | [] => O
  | Todo :: tags => S (todo tags)
  | _ :: tags => todo tags
  end.

Definition counted (key : string) (v0 : Z) (p : Pool) (tags : list tag) : Prop :=
  Forall2 (fits key) tags p.2 /\
  BOT_STATS p.1 !! key = Some (v0 + Z.of_nat (bumped tags)).

(** ** Uploads of one category *)

Inductive category := Photos | Documents.

Definition counter (cat : category) : string :=
  match cat with Photos => "photos" | Documents => "documents" end.

Definition upload_handler (cat : category) : Fn.name :=
  match cat with Photos => Fn.handle_photo | Documents => Fn.handle_document end.

(** A document that passes the size test of [handle_document]. *)
Definition within_limit (update : Update) : Prop :=
  match update with
  | MessageUpdate m =>
      match document m with
      | Some doc =>
          match doc_file_size doc with
          | Some size => size <= MAX_FILE_SIZE
          | None => True
          end
      | None => True
      end
  | _ => True
  end.

(** An upload that [handle_document] does not turn away for its size;
    photos carry no size test. *)
Definition storable (cat : category) (update : Update) : Prop :=
  match cat with Photos => True | Documents => within_limit update end.

(** The pool of [uploads] of one category next to any [others]. *)
Definition upload_pool `{PyLib} (cfg : Config) (cat : category)
    (uploads : list Update) (others : list (Fn.name * Update))
    : list (coro unit) :=
  (body cfg (upload_handler cat) <$> uploads) ++
  ((fun o => body cfg o.1 o.2) <$> others).

Definition upload_tags (uploads : list Update) (others : list (Fn.name * Update))
    : list tag :=
  ((fun _ => Todo) <$> uploads) ++ ((fun _ => Other) <$> others).

(** * Auxiliary definitions of the statements *)

(** What a handler leaves behind when all it does is one reply. *)
Definition replied_only (c : call) (w : Oracle) (n : nat) (g : Globals)
    : Result unit :=
  {| outcome := match api w n c with inr _ => inr tt | inl e => inl e end;
     globals_after := g;
     trace := [Called c] |}.

Definition emit_all {A} (es : list event) (r : Result A) : Result A :=
  {| outcome := outcome r; globals_after := globals_after r;
     trace := es ++ trace r |}.

(** The branch taken at an entry whose pattern matches. *)
Definition reply_with (update : Update) (m : Message) (subject : string)
    (replies : list string) : coro unit :=
  reply ← random_choice replies;
  await (reply_text (chat_id m) reply None None);;
  user ← the_effective_user update;
  logger_info
    ("Keyword matched from " +:+ fmt_opt (username user) +:+ ": " +:+ subject);;
  Ret tt.


(** The test [OWNER_ID and AUTO_FORWARD] as a value: the chat a copy goes
    to, if any. *)
Definition forward_target (cfg : Config) (g : Globals) : option Z :=
  match OWNER_ID cfg with
  | Some owner => if negb (owner =? 0) && AUTO_FORWARD g then Some owner else None
  | None => None
  end.

Definition is_forward (c : call) : bool :=
  match c with
  | send_photo _ _ _ | send_document _ _ _ => true
  | _ => false
  end.

(** Some copy was sent to the owner in this trace. *)
Definition forwarded (tr : list event) : bool := existsb is_forward (calls tr).

(** The sender of [update] passes [is_admin]. *)
Definition by_admin (cfg : Config) (update : Update) : Prop :=
  exists user,
    effective_user update = Some user /\
    is_admin (OWNER_ID cfg) (user_id user) = true.


(** * Concrete libraries and oracles, for evaluating the model *)

(** For a pattern without metacharacters [re.search] is the substring
    test, and on ASCII text [str.lower] touches the letters A-Z only. *)
Definition literal_lib : PyLib :=
  {| str_lower := PyStr.lower;
     regex_search := fun pattern subject => Some (PyStr.contains pattern subject) |}.

Definition ok_response (c : call) : resp c :=
  match c return resp c with
  | get_file remote_id => {| file_id := remote_id |}
  | _ => tt
  end.

(** Every call succeeds and every draw is [d]. *)
Definition calm (d : nat) : Oracle :=
  {| api := fun _ c => inr (ok_response c); dice := fun _ => d |}.

(** Every call succeeds except the [n]-th answer, which is a transport
    failure. *)
Definition failing_at (n : nat) : Oracle :=
  {| api := fun i c => if (i =? n)%nat then inl NetworkError else inr (ok_response c);
     dice := fun _ => O |}.

(** ** Scenario data *)

Definition sender7 : User := {| user_id := 7; username := Some "seven" |}.

Definition sender8 : User := {| user_id := 8; username := None |}.

Definition owner42 : User := {| user_id := 42; username := Some "owner" |}.

(** The first scenario of the specification: admin 42, empty table, a
    document of 25 MiB from sender 7. *)
Definition scenario_cfg : Config := {| OWNER_ID := Some 42; KEYWORDS := [] |}.

(** The second scenario of the specification. *)
Definition greeting_cfg : Config :=
  {| OWNER_ID := Some 42; KEYWORDS := [("hello", ["hi!"]); ("h", ["other"])] |}.

Definition greeting_cfg_swapped : Config :=
  {| OWNER_ID := Some 42; KEYWORDS := [("h", ["other"]); ("hello", ["hi!"])] |}.

Definition farewell_cfg : Config :=
  {| OWNER_ID := Some 42;
     KEYWORDS := [("bye", ["see you"]); ("hello", ["hi!"]); ("h", ["other"])] |}.

(** No owner configured. *)
Definition ownerless_cfg : Config := {| OWNER_ID := None; KEYWORDS := [] |}.

(** The owner id [0], which the loader accepts and [is_admin] honours. *)
Definition owner_zero_cfg : Config :=
  {| OWNER_ID := load_OWNER_ID (Some "0"); KEYWORDS := [] |}.

Definition document_message (name : string) (size : Z) : Message :=
  {| chat_id := 7; from_user := sender7; text := None; command := None;
     photo := [];
     document := Some {| doc_file_id := "BQAC"; doc_file_name := Some name;
                         doc_file_size := Some size |} |}.

Definition command_message (sender : User) (cmd : string) : Message :=
  {| chat_id := user_id sender; from_user := sender;
     text := Some ("/" +:+ cmd); command := Some cmd; photo := [];
     document := None |}.

Definition photo_message : Message :=
  {| chat_id := 7; from_user := sender7; text := None; command := None;
     photo := [ {| photo_file_id := "AgAC-small" |}; {| photo_file_id := "AgAC-large" |} ];
     document := None |}.

Definition photo_message_from (sender : User) : Message :=
  {| chat_id := user_id sender; from_user := sender; text := None; command := None;
     photo := [ {| photo_file_id := "AgAC-8" |} ]; document := None |}.

Definition text_message (t : string) : Message :=
  {| chat_id := 7; from_user := sender7; text := Some t; command := None;
     photo := []; document := None |}.


(** The sender whose id is [0], and that sender's toggle. *)
Definition owner0 : User := {| user_id := 0; username := Some "zero" |}.

Definition zero_toggle : list (Update * Oracle) :=
  [(MessageUpdate (command_message owner0 "toggleforward"), calm 0)].

(** Two photo uploads and a toggle by the owner, interleaved: the second
    photo passes the flag test before the toggle, the first one after
    it. *)
Definition calm_turn (i : nat) : Turn :=
  {| who := i; answers := fun c => inr (ok_response c); draws := fun _ => O |}.

Definition interleaved : list Turn :=
  calm_turn <$> [0; 1; 1; 2; 0; 2; 0; 1; 1]%nat.

Definition interleaved_uploads : list Update :=
  [MessageUpdate photo_message; MessageUpdate (photo_message_from sender8)].

Definition interleaved_others : list (Fn.name * Update) :=
  [(Fn.toggleforward, MessageUpdate (command_message owner42 "toggleforward"))].

Definition interleaved_end : Pool :=
  default (initial_globals true, [])
    (@pool_run literal_lib interleaved
       (initial_globals true,
        @upload_pool literal_lib scenario_cfg Photos interleaved_uploads interleaved_others)).

(** * The sanitizer's policy in the words of the specification *)

(** The policy in the words of the specification: the allow-set
    [A-Za-z0-9_.-()] and space, the path separators, and the three steps
    replace, strip, truncate. *)
Definition allow_set (c : ascii) : bool :=
  let n := N_of_ascii c in
  (((65 <=? n) && (n <=? 90)) || ((97 <=? n) && (n <=? 122)) ||
   ((48 <=? n) && (n <=? 57)))%N || PyStr.mem c "_.-() ".

Definition is_path_separator (c : ascii) : bool := PyStr.mem c "\/".

Definition sanitize_spec (name : string) : string :=
  PyStr.take 200
    (PyStr.filter allow_set
       (PyStr.map (fun c => if is_path_separator c then "_"%char else c) name)).

(** * Further definitions

    ** The sanitizer *)

(** The first two steps of the policy, before the truncation. *)
Definition stripped (name : string) : string :=
  PyStr.filter allow_set
    (PyStr.map (fun c => if is_path_separator c then "_"%char else c) name).

(** ** Values of the environment *)

(** [s] is made of ASCII characters; on such a value [str.isdigit] is
    [PyStr.all is_digit]. *)
Definition ascii_only (s : string) : bool :=
  PyStr.all (fun c => (N_of_ascii c <? 128)%N) s.

(** ** Kinds of calls *)

(** The two calls that bring a file in. *)
Definition is_fetch (c : call) : bool :=
  match c with
  | get_file _ | download_to_drive _ _ _ => true
  | _ => false
  end.

Definition is_reply (c : call) : bool :=
  match c with
  | reply_text _ _ _ _ => true
  | _ => false
  end.

(** ** Handlers that leave the flag alone *)

(** [c] never assigns [AUTO_FORWARD]. *)
Fixpoint flag_kept {A} (c : coro A) : Prop :=
  match c with
  | Ret _ | Raise _ => True
  | ReadFlag k => forall b, flag_kept (k b)
  | WriteFlag _ _ => False
  | ReadStat _ k => forall o, flag_kept (k o)
  | WriteStat _ _ k => flag_kept k
  | Log _ _ k => flag_kept k
  | Search _ _ k => forall o, flag_kept (k o)
  | RandBelow _ k => forall i, flag_kept (k i)
  | Await _ k => forall r, flag_kept (k r)
  end.

(** The command names registered in [main]. *)
Definition registered_commands : list string :=
  omap (fun h => match h with CommandHandler cmd _ => Some cmd | _ => None end)
    main_handlers.

(** The call a suspended task waits for. *)
Definition awaited {A} (c : coro A) : option call :=
  match c with
  | Await c _ => Some c
  | _ => None
  end.

(** ** The updates each registered callback is meant for *)

Definition serves (f : Fn.name) (update : Update) : Prop :=
  let command_is name :=
    exists m,
      (update = MessageUpdate m \/ update = EditedMessageUpdate m) /\
      PyStr.lower <$> command m = Some name in
  match f with
  | Fn.start => command_is "start"
  | Fn.help_command => command_is "help"
  | Fn.menu => command_is "menu"
  | Fn.getmyid => command_is "getmyid"
  | Fn.toggleforward => command_is "toggleforward"
  | Fn.getstats => command_is "getstats"
  | Fn.handle_buttons => exists q, update = CallbackUpdate q
  | Fn.handle_photo =>
      exists m ps, effective_message update = Some m /\ last (photo m) = Some ps
  | Fn.handle_document =>
      exists m doc,
        effective_message update = Some m /\ document m = Some doc /\ photo m = []
  | Fn.keyword_reply =>
      exists m t,
        effective_message update = Some m /\ text m = Some t /\ t <> "" /\
        command m = None /\ photo m = [] /\ document m = None
  | Fn.handle_message => False
  end.

(** ** Updates handled one after the other *)

(** The globals after [main] has handled a series of updates in turn, each
    with its own answers from outside. *)
Fixpoint after_updates `{PyLib} (cfg : Config) (events : list (Update * Oracle))
    (g : Globals) : Globals :=
  match events with
  | [] => g
  | (update, w) :: rest =>
      after_updates cfg rest (globals_after (run (process_update cfg update) w 0 g))
  end.

(** An oracle under which no call fails. *)
Definition never_fails (w : Oracle) : Prop :=
  forall i c, exists r, api w i c = inr r.

(** ** Further scenario data *)

(** A table whose second entry has no replies. *)
Definition silent_cfg : Config :=
  {| OWNER_ID := Some 42;
     KEYWORDS := [("bye", ["see you"]); ("hello", []); ("h", ["other"])] |}.

(** A table whose second pattern is an unclosed group. *)
Definition broken_cfg : Config :=
  {| OWNER_ID := Some 42;
     KEYWORDS := [("bye", ["see you"]); ("(", ["oops"]); ("hello", ["hi!"])] |}.

(** As [literal_lib], but the pattern made of one opening parenthesis does
    not compile, as in Python's [re]. *)
Definition unclosed_group_lib : PyLib :=
  {| str_lower := PyStr.lower;
     regex_search := fun pattern subject =>
       if bool_decide (pattern = "(") then None
       else Some (PyStr.contains pattern subject) |}.

(** A document that declares neither a name nor a size. *)
Definition sizeless_document : Document :=
  {| doc_file_id := "BQAC"; doc_file_name := None; doc_file_size := None |}.

Definition sizeless_document_message : Message :=
  {| chat_id := 7; from_user := sender7; text := None; command := None;
     photo := []; document := Some sizeless_document |}.

(** * Proofs *)

Ltac each_ascii c :=
  destruct c as [[] [] [] [] [] [] [] []]; vm_compute; reflexivity.

Lemma path_separators_class c :
  Re.class_matches path_separators c = is_path_separator c.
Proof. each_ascii c. Qed.

Lemma illegal_characters_class c :
  Re.class_matches illegal_characters c = negb (allow_set c).
Proof. each_ascii c. Qed.

Lemma allow_set_no_separator c :
  allow_set c = true -> is_path_separator c = false.
Proof. destruct c as [[] [] [] [] [] [] [] []]; vm_compute; congruence. Qed.

Lemma sub_class_single k u s :
  Re.sub_class k (String u EmptyString) s =
  PyStr.map (fun c => if Re.class_matches k c then u else c) s.
Proof.
  induction s as [|c s IH]; simpl; [reflexivity|].
  destruct (Re.class_matches k c); simpl; now rewrite IH.
Qed.

Lemma sub_class_plus_delete k in_run s :
  Re.sub_class_plus_from k "" in_run s =
  PyStr.filter (fun c => negb (Re.class_matches k c)) s.
Proof.
  revert in_run; induction s as [|c s IH]; intros in_run; simpl; [reflexivity|].
  destruct (Re.class_matches k c); simpl.
  - destruct in_run; simpl; apply IH.
  - now rewrite IH.
Qed.

Lemma map_ext_str f g s : (forall c, f c = g c) -> PyStr.map f s = PyStr.map g s.
Proof. intros E; induction s; simpl; [reflexivity|]. now rewrite E, IHs. Qed.

Lemma filter_ext_str p q s :
  (forall c, p c = q c) -> PyStr.filter p s = PyStr.filter q s.
Proof. intros E; induction s; simpl; [reflexivity|]. now rewrite E, IHs. Qed.

Lemma take_length n s : (String.length (PyStr.take n s) <= n)%nat.
Proof.
  revert s; induction n as [|n IH]; intros [|c s]; simpl; try lia.
  specialize (IH s); lia.
Qed.

Lemma all_filter p q s :
  (forall c, p c = true -> q c = true) -> PyStr.all q (PyStr.filter p s) = true.
Proof.
  intros Hpq; induction s as [|c s IH]; simpl; [reflexivity|].
  destruct (p c) eqn:E; simpl; [|exact IH].
  now rewrite (Hpq _ E), IH.
Qed.

Lemma all_take p n s : PyStr.all p s = true -> PyStr.all p (PyStr.take n s) = true.
Proof.
  revert s; induction n as [|n IH]; intros [|c s]; simpl; try reflexivity.
  intros [-> Hs]%andb_true_iff; simpl; auto.
Qed.

Lemma sanitize_filename_unfold name : sanitize_filename name = sanitize_spec name.
Proof.
  unfold sanitize_filename, sanitize_spec, Re.sub_class_plus.
  rewrite sub_class_plus_delete, sub_class_single.
  f_equal.
  rewrite (map_ext_str _ (fun c => if is_path_separator c then "_"%char else c))
    by (intros c; now rewrite path_separators_class).
  apply filter_ext_str; intros c.
  rewrite illegal_characters_class. now destruct (allow_set c).
Qed.

(** C3: for every name, [sanitize_filename] is replace-separators, then
    strip-outside-the-allow-set, then truncate-to-200; its result is at most
    200 characters long and each of its characters is in the allow-set and
    is not a path separator. *)
Theorem sanitize_filename_policy (name : string) :
  sanitize_filename name = sanitize_spec name /\
  (String.length (sanitize_filename name) <= 200)%nat /\
  PyStr.all (fun c => allow_set c && negb (is_path_separator c))
    (sanitize_filename name) = true.
Proof.
  split; [apply sanitize_filename_unfold|]. split.
  - unfold sanitize_filename. apply take_length.
  - rewrite sanitize_filename_unfold. unfold sanitize_spec.
    apply all_take, all_filter. intros c Hc.
    now rewrite Hc, (allow_set_no_separator _ Hc).
Qed.

Example sanitize_traversal :
  sanitize_filename "7_../../etc/pass wd?.txt" = "7_.._.._etc_pass wd.txt".
Proof. reflexivity. Qed.

Example sanitize_non_ascii : sanitize_filename "7_résumé (1).pdf" = "7_rsum (1).pdf".
Proof. reflexivity. Qed.

(** * The admin predicate *)

(** C5: [is_admin] depends on the configured identity and the sender only;
    with no identity configured it is false for every id, and with one
    configured it is true exactly for that id. *)
Theorem is_admin_exact (owner user : Z) :
  is_admin None user = false /\
  (is_admin (Some owner) user = true <-> user = owner).
Proof.
  split; [reflexivity|]. simpl. apply Z.eqb_eq.
Qed.

(** Unfolding of the monad's plumbing, leaving strings and numbers alone. *)
Ltac coro_cbn :=
  cbn [mbind mret mthrow coro_mbind coro_ret coro_throw coro_bind catch
       the_message the_effective_user effective_user from_option await read_AUTO_FORWARD write_AUTO_FORWARD
       read_BOT_STATS write_BOT_STATS logger_info logger_exception re_search].

(** The same, and the interpreter along the operations laid bare. *)
Ltac run_cbn :=
  cbn [run mbind mret mthrow coro_mbind coro_ret coro_throw coro_bind catch
       the_message the_effective_user effective_user from_option await read_AUTO_FORWARD write_AUTO_FORWARD
       read_BOT_STATS write_BOT_STATS logger_info logger_exception re_search].

(** * Oversized documents *)

Lemma run_reply_only `{PyLib} (c : call) (w : Oracle) (n : nat) (g : Globals) :
  run (await c;; Ret tt) w n g = replied_only c w n g.
Proof.
  unfold replied_only; simpl. destruct (api w n c); reflexivity.
Qed.

(** C2: a document whose declared size exceeds [MAX_FILE_SIZE] (20 MiB) is
    answered with the too-large reply and nothing else happens: the reply
    is the only call made (no [get_file], no [download_to_drive], no
    [send_document]), nothing is logged, and the globals, the document
    counter among them, are as before. *)
Theorem oversized_document_rejected `{PyLib} (cfg : Config) (m : Message)
    (doc : Document) (size : Z) (w : Oracle) (n : nat) (g : Globals) :
  document m = Some doc ->
  doc_file_size doc = Some size ->
  size > MAX_FILE_SIZE ->
  MAX_FILE_SIZE = 20971520 /\
  run (handle_document cfg (MessageUpdate m)) w n g =
    replied_only (reply_text (chat_id m) "⚠️ File too large." None None) w n g.
Proof.
  intros Hdoc Hsize Hbig. split; [reflexivity|].
  unfold handle_document. coro_cbn.
  rewrite Hdoc. coro_cbn. rewrite Hsize. coro_cbn.
  assert ((size >? MAX_FILE_SIZE) = true) as -> by (apply Z.gtb_lt; lia).
  apply run_reply_only.
Qed.

(** * The admin gate *)



(** * The keyword matcher *)

Section Matcher.

Context `{PyLib} (update : Update) (m : Message) (subject : string).

(** Entries whose pattern does not match are searched and passed over. *)
Lemma keyword_scan_skip pre rest w n g :
  (forall p rs, (p, rs) ∈ pre -> regex_search p subject = Some false) ->
  run (keyword_scan update m subject (pre ++ rest)) w n g =
  emit_all ((fun e => Searched e.1 subject) <$> pre)
    (run (keyword_scan update m subject rest) w n g).
Proof.
  induction pre as [|[p rs] pre IH]; intros Hpre.
  - now destruct (run _ w n g).
  - cbn [app keyword_scan]. coro_cbn. cbn [run].
    rewrite (Hpre p rs) by apply list_elem_of_here. coro_cbn.
    rewrite IH by (intros q qs Hq; apply (Hpre q qs); now apply list_elem_of_further).
    reflexivity.
Qed.

Lemma keyword_scan_hit pattern replies post w n g :
  regex_search pattern subject = Some true ->
  run (keyword_scan update m subject ((pattern, replies) :: post)) w n g =
  emit (Searched pattern subject) (run (reply_with update m subject replies) w n g).
Proof.
  intros Hhit. cbn [keyword_scan]. coro_cbn. cbn [run]. rewrite Hhit.
  reflexivity.
Qed.

Lemma keyword_scan_miss table w n g :
  (forall p rs, (p, rs) ∈ table -> regex_search p subject = Some false) ->
  run (keyword_scan update m subject table) w n g =
  emit_all ((fun e => Searched e.1 subject) <$> table) (stop (inr tt) g).
Proof.
  intros Hmiss. rewrite <- (app_nil_r table) at 1.
  rewrite keyword_scan_skip by exact Hmiss. reflexivity.
Qed.

Lemma run_reply_with replies w n g :
  replies <> [] ->
  exists reply,
    replies !! (dice w n mod length replies)%nat = Some reply /\
    calls (trace (run (reply_with update m subject replies) w n g)) =
      [reply_text (chat_id m) reply None None] /\
    globals_after (run (reply_with update m subject replies) w n g) = g.
Proof.
  intros Hne.
  destruct (lookup_lt_is_Some_2 replies (dice w n mod length replies)%nat)
    as [reply Hreply].
  { apply Nat.mod_upper_bound. destruct replies; [congruence|simpl; lia]. }
  exists reply. split; [exact Hreply|].
  unfold reply_with, random_choice.
  destruct replies as [|r0 rs]; [congruence|].
  coro_cbn. cbn [run]. rewrite Hreply. coro_cbn. cbn [run].
  destruct (api w (S n) _); [split; reflexivity|].
  coro_cbn. unfold the_effective_user.
  destruct (effective_user update); split; reflexivity.
Qed.

End Matcher.

Lemma searches_app tr1 tr2 : searches (tr1 ++ tr2) = searches tr1 ++ searches tr2.
Proof. apply omap_app. Qed.

Lemma calls_app tr1 tr2 : calls (tr1 ++ tr2) = calls tr1 ++ calls tr2.
Proof. apply omap_app. Qed.

Lemma searches_searched (subject : string) (table : list (string * list string)) :
  searches ((fun e => Searched e.1 subject) <$> table) =
  (fun e => (e.1, subject)) <$> table.
Proof. induction table as [|e table IH]; [reflexivity|]. cbn. now f_equal. Qed.

Lemma calls_searched (subject : string) (table : list (string * list string)) :
  calls ((fun e => Searched e.1 subject) <$> table) = [].
Proof. induction table as [|e table IH]; [reflexivity|]. exact IH. Qed.

Lemma reply_with_no_search `{PyLib} update m subject replies w n g :
  searches (trace (run (reply_with update m subject replies) w n g)) = [].
Proof.
  unfold reply_with, random_choice. destruct replies as [|r0 rs]; [reflexivity|].
  coro_cbn. cbn [run].
  destruct (_ !! _); coro_cbn; cbn [run]; [|reflexivity].
  destruct (api w (S n) _); [reflexivity|].
  coro_cbn. unfold the_effective_user.
  destruct (effective_user update); reflexivity.
Qed.

(** C1: the matcher lower-cases the text once and searches the patterns of
    the table in table order against that lower-cased text; at the first
    entry whose pattern matches it stops, so the entries searched are
    exactly those up to and including that entry, whatever follows it in
    the table; the one call made is a reply drawn from that entry's
    replies, and when there is exactly one reply it is that one for every
    random draw. *)
Theorem keyword_first_match_wins `{PyLib} (cfg : Config) (m : Message)
    (pre post : list (string * list string)) (pattern : string)
    (replies : list string) (w : Oracle) (n : nat) (g : Globals) :
  KEYWORDS cfg = pre ++ (pattern, replies) :: post ->
  (forall p rs, (p, rs) ∈ pre ->
     regex_search p (str_lower (default "" (text m))) = Some false) ->
  regex_search pattern (str_lower (default "" (text m))) = Some true ->
  let subject := str_lower (default "" (text m)) in
  let r := run (keyword_reply cfg (MessageUpdate m)) w n g in
  searches (trace r) = (fun e => (e.1, subject)) <$> (pre ++ [(pattern, replies)]) /\
  (replies <> [] ->
   exists reply,
     replies !! (dice w n mod length replies)%nat = Some reply /\
     calls (trace r) = [reply_text (chat_id m) reply None None]) /\
  (forall reply, replies = [reply] ->
     calls (trace r) = [reply_text (chat_id m) reply None None]) /\
  globals_after r = g.
Proof.
  intros Htable Hpre Hhit subject r.
  assert (Hr : r = emit_all ((fun e => Searched e.1 subject) <$> pre)
                 (emit (Searched pattern subject)
                    (run (reply_with (MessageUpdate m) m subject replies) w n g))).
  { unfold r, keyword_reply. coro_cbn. rewrite Htable.
    rewrite keyword_scan_skip by exact Hpre.
    now rewrite keyword_scan_hit by exact Hhit. }
  assert (Hany : replies <> [] ->
            exists reply,
              replies !! (dice w n mod length replies)%nat = Some reply /\
              calls (trace r) = [reply_text (chat_id m) reply None None]).
  { intros Hne.
    destruct (run_reply_with (MessageUpdate m) m subject replies w n g Hne)
      as (reply & Hreply & Hcalls & _).
    exists reply. split; [exact Hreply|].
    rewrite Hr. cbn [emit_all emit trace]. rewrite calls_app, calls_searched.
    exact Hcalls. }
  split; [|split; [exact Hany|split]].
  - rewrite Hr. cbn [emit_all emit trace].
    rewrite searches_app, searches_searched, fmap_app. f_equal.
    cbn. now rewrite reply_with_no_search.
  - intros reply ->. destruct Hany as (reply' & Hreply & Hcalls); [congruence|].
    change (length [reply]) with 1%nat in Hreply.
    rewrite Nat.mod_1_r in Hreply. cbn in Hreply. congruence.
  - rewrite Hr. cbn [emit_all emit globals_after].
    destruct replies as [|r0 rs]; [reflexivity|].
    now destruct (run_reply_with (MessageUpdate m) m subject (r0 :: rs) w n g)
      as (? & _ & _ & ->).
Qed.

(** * Text that matches no keyword *)

(** A handler that ends normally never reaches the error handler. *)
Lemma run_catch_ok `{PyLib} {A} (c : coro A) (h : exn -> coro A) (a : A) w i g :
  outcome (run c w i g) = inr a -> run (catch c h) w i g = run c w i g.
Proof.
  revert i g; induction c; intros i g; cbn [run catch emit outcome stop];
    try discriminate; auto; intros Hok; f_equal; auto.
Qed.

Lemma handle_message_not_registered :
  Fn.handle_message ∉ callback_of <$> main_handlers.
Proof. compute_done. Qed.

Lemma dispatch_registered (update : Update) (f : Fn.name) :
  dispatch update = Some f -> f ∈ callback_of <$> main_handlers.
Proof.
  unfold dispatch. destruct (List.find _ _) as [h|] eqn:Hfind; [|discriminate].
  intros [= <-]. apply list_elem_of_fmap_2, list_elem_of_In.
  now apply List.find_some in Hfind.
Qed.

Lemma dispatch_plain_text (m : Message) (t : string) :
  text m = Some t -> command m = None -> photo m = [] -> document m = None ->
  dispatch (MessageUpdate m) =
    (if decide (t = "") then None else Some Fn.keyword_reply).
Proof.
  intros Htext Hcmd Hphoto Hdoc.
  unfold dispatch, main_handlers.
  cbn [List.find check_update filter_check].
  rewrite Hcmd, Hphoto, Hdoc, Htext. cbn [default].
  destruct (decide (t = "")) as [->|Hne]; [reflexivity|].
  rewrite (bool_decide_eq_false_2 (t = "")) by exact Hne. reflexivity.
Qed.

Lemma process_update_unmatched `{PyLib} (cfg : Config) (m : Message)
    (t : string) (w : Oracle) (n : nat) (g : Globals) :
  text m = Some t -> command m = None -> photo m = [] -> document m = None ->
  (forall p rs, (p, rs) ∈ KEYWORDS cfg -> regex_search p (str_lower t) = Some false) ->
  let r := run (process_update cfg (MessageUpdate m)) w n g in
  calls (trace r) = [] /\ outcome r = inr tt /\ globals_after r = g.
Proof.
  intros Htext Hcmd Hphoto Hdoc Hmiss r.
  unfold r, process_update. rewrite (dispatch_plain_text m t Htext Hcmd Hphoto Hdoc).
  destruct (decide (t = "")) as [->|Hne]; [now cbn|].
  rewrite run_catch_ok with (a := tt); cbn [body]; unfold keyword_reply;
    coro_cbn; rewrite Htext; cbn [default];
    rewrite keyword_scan_miss by exact Hmiss;
    cbn [emit_all stop trace outcome globals_after]; [|reflexivity].
  now rewrite app_nil_r, calls_searched.
Qed.

(** With an empty table no text is ever answered. *)
Corollary empty_table_no_reply `{PyLib} (cfg : Config) (m : Message)
    (t : string) (w : Oracle) (n : nat) (g : Globals) :
  KEYWORDS cfg = [] ->
  text m = Some t -> command m = None -> photo m = [] -> document m = None ->
  calls (trace (run (process_update cfg (MessageUpdate m)) w n g)) = [].
Proof.
  intros Hempty Htext Hcmd Hphoto Hdoc.
  apply (process_update_unmatched cfg m t w n g Htext Hcmd Hphoto Hdoc).
  rewrite Hempty. intros p rs Hin. inversion Hin.
Qed.

(** C10: a plain text message (no command, no photo, no document) whose
    lower-cased text matches no pattern of the table gets no reply: the
    update ends normally with no call of the Bot API and the globals
    untouched.  [handle_message], the function that would acknowledge it,
    is not among the registered callbacks and no update is dispatched to
    it; non-empty plain text goes to [keyword_reply].  With an empty table
    the condition on the patterns holds for every text. *)
Theorem unmatched_text_no_reply `{PyLib} (cfg : Config) (m : Message)
    (t : string) (w : Oracle) (n : nat) (g : Globals) :
  text m = Some t -> command m = None -> photo m = [] -> document m = None ->
  (forall p rs, (p, rs) ∈ KEYWORDS cfg -> regex_search p (str_lower t) = Some false) ->
  let r := run (process_update cfg (MessageUpdate m)) w n g in
  calls (trace r) = [] /\ outcome r = inr tt /\ globals_after r = g /\
  (Fn.handle_message ∉ callback_of <$> main_handlers) /\
  (forall update, dispatch update <> Some Fn.handle_message) /\
  (t <> "" -> dispatch (MessageUpdate m) = Some Fn.keyword_reply).
Proof.
  intros Htext Hcmd Hphoto Hdoc Hmiss r.
  destruct (process_update_unmatched cfg m t w n g Htext Hcmd Hphoto Hdoc Hmiss)
    as (Hr1 & Hr2 & Hr3).
  repeat split; auto using handle_message_not_registered.
  - intros update Hu%dispatch_registered.
    now apply handle_message_not_registered.
  - intros Hne. rewrite (dispatch_plain_text m t Htext Hcmd Hphoto Hdoc).
    now destruct (decide (t = "")).
Qed.

Section CounterDiscipline.

Context `{PyLib} (key : string).

Lemma advance_quiet {A} (c : coro A) d i g :
  quiet key c ->
  quiet key (advance c d i g).1 /\
  BOT_STATS (advance c d i g).2 !! key = BOT_STATS g !! key.
Proof.
  revert i g; induction c as [| | k IH | b k IH | key' k IH | key' v' k IH
                             | lvl msg k IH | p s k IH | m k IH | c k IH];
    intros i g Hq; cbn [advance quiet] in *; auto; try (now apply IH).
  - exact (IH i (set_AUTO_FORWARD b g) Hq).
  - destruct Hq as [Hne Hq]. destruct (IH i (set_BOT_STATS key' v' g) Hq) as [? ->].
    split; [assumption|]. cbn. now apply lookup_insert_ne.
Qed.

Lemma advance_bumping {A} (c : coro A) v d i g :
  bumping key v c ->
  BOT_STATS g !! key = Some v ->
  (pending key (advance c d i g).1 /\
   BOT_STATS (advance c d i g).2 !! key = Some v) \/
  (quiet key (advance c d i g).1 /\
   BOT_STATS (advance c d i g).2 !! key = Some (v + 1)).
Proof.
  revert i g; induction c as [| | k IH | b k IH | key' k IH | key' v' k IH
                             | lvl msg k IH | p s k IH | m k IH | c k IH];
    intros i g Hb Hv; cbn [advance bumping] in *; auto; try contradiction;
    try (now apply IH).
  destruct (decide (key' = key)) as [->|Hne].
  - destruct Hb as [-> Hq]. right.
    destruct (advance_quiet k d i (set_BOT_STATS key (v + 1) g) Hq) as [? ->].
    split; [assumption|]. cbn. apply lookup_insert_eq.
  - apply IH; [assumption|]. cbn. now rewrite lookup_insert_ne.
Qed.

Lemma advance_pending {A} (c : coro A) v d i g :
  pending key c ->
  BOT_STATS g !! key = Some v ->
  (pending key (advance c d i g).1 /\
   BOT_STATS (advance c d i g).2 !! key = Some v) \/
  (quiet key (advance c d i g).1 /\
   BOT_STATS (advance c d i g).2 !! key = Some (v + 1)).
Proof.
  revert i g; induction c as [| | k IH | b k IH | key' k IH | key' v' k IH
                             | lvl msg k IH | p s k IH | m k IH | c k IH];
    intros i g Hp Hv; cbn [advance pending] in *; auto; try contradiction;
    try (now apply IH).
  - destruct (Hp (BOT_STATS g !! key')) as [Hgo|(-> & v' & Hread & Hb)].
    + now apply IH.
    + assert (v' = v) as -> by congruence.
      now apply advance_bumping.
  - destruct Hp as [Hne Hp]. apply IH; [assumption|].
    cbn. now rewrite lookup_insert_ne.
Qed.

Lemma resume_quiet {A} (c : coro A) t : quiet key c -> quiet key (resume c t).
Proof. destruct c; cbn; auto. Qed.

Lemma resume_pending {A} (c : coro A) t : pending key c -> pending key (resume c t).
Proof. destruct c; cbn; auto. Qed.

Lemma later_refl tags : Forall2 later tags tags.
Proof. induction tags as [|[] tags IH]; constructor; cbn; auto. Qed.

Lemma later_trans tags1 tags2 tags3 :
  Forall2 later tags1 tags2 -> Forall2 later tags2 tags3 ->
  Forall2 later tags1 tags3.
Proof.
  intros H12; revert tags3; induction H12 as [|a b ? ? Hab _ IH];
    intros tags3 H23; inversion H23 as [|? c ? ? Hbc H23']; subst;
    constructor; auto.
  destruct a, b, c; cbn in *; auto.
Qed.

Lemma bump_at tags i :
  tags !! i = Some Todo ->
  Forall2 later tags (<[i := Bumped]> tags) /\
  bumped (<[i := Bumped]> tags) = S (bumped tags).
Proof.
  revert i; induction tags as [|tg tags IH]; intros [|i] Hi; try discriminate.
  - injection Hi as ->. cbn. split; [|reflexivity].
    constructor; [exact I|apply later_refl].
  - destruct (IH i Hi) as [Hl Hb].
    split; [constructor; [now destruct tg|exact Hl]|].
    destruct tg; cbn; first [exact Hb | f_equal; exact Hb].
Qed.

Lemma counted_step v0 t p p' tags :
  counted key v0 p tags ->
  pool_step t p = Some p' ->
  exists tags', Forall2 later tags tags' /\ counted key v0 p' tags'.
Proof.
  destruct p as [g tasks]. intros [Hfits Hcount]. cbn [fst snd] in *.
  unfold pool_step.
  destruct (tasks !! who t) as [c|] eqn:Hc; [|discriminate].
  destruct (finished c); [discriminate|].
  destruct (advance (resume c t) (draws t) 0 g) as [c' g'] eqn:Hadv.
  intros [= <-].
  destruct (Forall2_lookup_r _ _ _ _ _ Hfits Hc) as (tg & Htg & Hfit).
  assert (Hstay : tg <> Todo -> quiet key (resume c t) ->
            exists tags', Forall2 later tags tags' /\
                          counted key v0 (g', <[who t := c']> tasks) tags').
  { intros Hne Hq. exists tags. split; [apply later_refl|].
    destruct (advance_quiet (resume c t) (draws t) 0 g Hq) as [Hq' Hsame].
    rewrite Hadv in Hq', Hsame. cbn [fst snd] in *.
    split; cbn [fst snd]; [|now rewrite Hsame].
    rewrite <- (list_insert_id tags (who t) tg Htg).
    apply Forall2_insert; [exact Hfits|]. destruct tg; [congruence|exact Hq'..]. }
  destruct tg; cbn [fits] in Hfit;
    [|apply Hstay; [discriminate|now apply resume_quiet]..].
  destruct (advance_pending (resume c t) _ (draws t) 0 g
              (resume_pending c t Hfit) Hcount) as [[Hp Hv]|[Hq Hv]];
    rewrite Hadv in *; cbn [fst snd] in *.
  - exists tags. split; [apply later_refl|]. split; cbn [fst snd]; [|exact Hv].
    rewrite <- (list_insert_id tags (who t) Todo Htg).
    now apply Forall2_insert.
  - destruct (bump_at tags (who t) Htg) as [Hl Hb].
    exists (<[who t := Bumped]> tags). split; [exact Hl|].
    split; cbn [fst snd]; [now apply Forall2_insert|].
    rewrite Hv, Hb. f_equal. lia.
Qed.

Lemma counted_run v0 schedule p p' tags :
  counted key v0 p tags ->
  pool_run schedule p = Some p' ->
  exists tags', Forall2 later tags tags' /\ counted key v0 p' tags'.
Proof.
  revert p tags; induction schedule as [|t rest IH]; intros p tags Hinv.
  - intros [= <-]. exists tags. split; [apply later_refl|exact Hinv].
  - cbn [pool_run]. destruct (pool_step t p) as [p1|] eqn:Hstep; [|discriminate].
    intros Hrun.
    destruct (counted_step v0 t p p1 tags Hinv Hstep) as (tags1 & Hl1 & Hinv1).
    destruct (IH p1 tags1 Hinv1 Hrun) as (tags' & Hl' & Hinv').
    exists tags'. split; [eapply later_trans; eassumption|exact Hinv'].
Qed.

(** When the uploads have returned, each of them has counted itself,
    whatever the state of the other tasks. *)
Lemma uploads_returned_bumped uploads others tags' (tasks : list (coro unit)) :
  Forall2 later (upload_tags uploads others) tags' ->
  Forall2 (fits key) tags' tasks ->
  Forall (fun c => c = Ret tt) (take (length uploads) tasks) ->
  bumped tags' = length uploads.
Proof.
  unfold upload_tags. revert tags' tasks.
  induction uploads as [|u uploads IH]; intros tags' tasks Hlater Hfits Hret.
  - clear Hfits Hret. cbn in *. revert tags' Hlater.
    induction others as [|o others IHo]; intros tags' Hlater;
      inversion Hlater as [|a b ? tags'' Hab Hrest]; subst; [reflexivity|].
    destruct b; cbn in Hab; try contradiction. cbn. now apply IHo.
  - cbn [fmap list_fmap app] in Hlater.
    inversion Hlater as [|a b ? tags'' Hab Hrest]; subst.
    inversion Hfits as [|? c ? tasks'' Hfit Hfits']; subst.
    cbn [length take] in Hret.
    inversion Hret as [|? ? Hc Hret']; subst.
    destruct b; cbn in Hab, Hfit; try contradiction.
    cbn [bumped length]. f_equal. now apply (IH tags'' tasks'').
Qed.

End CounterDiscipline.

(** * Counters under cooperative scheduling

    The discipline is kept by every turn of the loop, and the handlers
    obey it. *)

Section HandlersCounted.

Context `{PyLib} (cfg : Config) (key : string).

Lemma quiet_bind {A B} (c : coro A) (f : A -> coro B) :
  quiet key c -> (forall a, quiet key (f a)) -> quiet key (c ≫= f).
Proof.
  intros Hc Hf. unfold mbind, coro_mbind.
  induction c; cbn [coro_bind quiet] in *; auto.
  destruct Hc; auto.
Qed.

Lemma bumping_bind {A B} (c : coro A) (f : A -> coro B) v :
  bumping key v c -> (forall a, quiet key (f a)) -> bumping key v (c ≫= f).
Proof.
  intros Hc Hf. unfold mbind, coro_mbind.
  induction c as [| | k IH | b k IH | key' k IH | key' v' k IH
                 | lvl msg k IH | p s k IH | m k IH | c k IH];
    cbn [coro_bind bumping] in *; auto; try contradiction.
  destruct (decide (key' = key)); [|auto].
  destruct Hc as [-> Hq]. split; [reflexivity|].
  now apply (quiet_bind k f).
Qed.

Lemma pending_bind {A B} (c : coro A) (f : A -> coro B) :
  pending key c -> (forall a, quiet key (f a)) -> pending key (c ≫= f).
Proof.
  intros Hc Hf. unfold mbind, coro_mbind.
  induction c as [| | k IH | b k IH | key' k IH | key' v' k IH
                 | lvl msg k IH | p s k IH | m k IH | c k IH];
    cbn [coro_bind pending] in *; auto; try contradiction.
  - intros o. destruct (Hc o) as [Hgo|(-> & v & -> & Hb)]; [left; auto|].
    right. split; [reflexivity|]. exists v. split; [reflexivity|].
    now apply (bumping_bind (k (Some v)) f).
  - destruct Hc; auto.
Qed.

Lemma quiet_then_pending {A B} (c : coro A) (f : A -> coro B) :
  quiet key c -> (forall a, pending key (f a)) -> pending key (c ≫= f).
Proof.
  intros Hc Hf. unfold mbind, coro_mbind.
  induction c; cbn [coro_bind pending quiet] in *; auto.
  destruct Hc; auto.
Qed.

(** [BOT_STATS[key] += 1] and what follows it *)
Lemma pending_increment (rest : Z -> coro unit) :
  (forall n, quiet key (rest n)) ->
  pending key (n ← read_BOT_STATS key; write_BOT_STATS key (n + 1);; rest n).
Proof.
  intros Hrest. coro_cbn. cbn [pending]. intros [v|]; [right|left; exact I].
  split; [reflexivity|]. exists v. split; [reflexivity|].
  coro_cbn. cbn [bumping]. rewrite decide_True by reflexivity. auto.
Qed.

Lemma quiet_assign (key' : string) (v : Z) :
  key' <> key -> quiet key (write_BOT_STATS key' v).
Proof. intros Hne. cbn. auto. Qed.

Lemma quiet_await (c : call) : quiet key (await c).
Proof. intros [e|r]; exact I. Qed.

Lemma quiet_read (key' : string) : quiet key (read_BOT_STATS key').
Proof. intros [v|]; exact I. Qed.

Lemma quiet_flag : quiet key read_AUTO_FORWARD.
Proof. intros b; exact I. Qed.

Lemma quiet_set_flag b : quiet key (write_AUTO_FORWARD b).
Proof. exact I. Qed.

Lemma quiet_log msg : quiet key (logger_info msg).
Proof. exact I. Qed.

Lemma quiet_search p s : quiet key (re_search p s).
Proof. intros [b|]; exact I. Qed.

Lemma quiet_choice seq : quiet key (random_choice seq).
Proof.
  destruct seq as [|x seq]; [exact I|]. intros i. cbn.
  now destruct (_ !! _).
Qed.

Lemma quiet_message update : quiet key (the_message update).
Proof. now destruct update. Qed.

Lemma quiet_user update : quiet key (the_effective_user update).
Proof. unfold the_effective_user. now destruct (effective_user update). Qed.

Lemma quiet_option {A} (o : option A) e : quiet key (from_option Ret (Raise e) o).
Proof. now destruct o. Qed.

Lemma quiet_ret {A} (a : A) : quiet key (Ret a).
Proof. exact I. Qed.

Lemma quiet_forward send : quiet key (forward_if_enabled cfg send).
Proof.
  unfold forward_if_enabled. destruct (OWNER_ID cfg) as [owner|]; [|exact I].
  destruct (negb _); [|exact I].
  apply quiet_bind; [apply quiet_flag|]. intros [|]; [|exact I].
  apply quiet_bind; [apply quiet_await|]. intros; exact I.
Qed.

End HandlersCounted.

(** Unfolds a bind whose first part has returned or raised. *)
Ltac bind_cbn := cbn [the_message from_option mbind coro_mbind coro_bind].

(** An operation that leaves every counter alone. *)
Ltac quiet_leaf :=
  lazymatch goal with
  | |- quiet _ (await _) => apply quiet_await
  | |- quiet _ (read_BOT_STATS _) => apply quiet_read
  | |- quiet _ read_AUTO_FORWARD => apply quiet_flag
  | |- quiet _ (write_AUTO_FORWARD _) => apply quiet_set_flag
  | |- quiet _ (logger_info _) => apply quiet_log
  | |- quiet _ (re_search _ _) => apply quiet_search
  | |- quiet _ (random_choice _) => apply quiet_choice
  | |- quiet _ (the_message _) => apply quiet_message
  | |- quiet _ (the_effective_user _) => apply quiet_user
  | |- quiet _ (from_option Ret (Raise _) _) => apply quiet_option
  | |- quiet _ (forward_if_enabled _ _) => apply quiet_forward
  | |- quiet _ (Ret _) => exact I
  | |- quiet _ (Raise _) => exact I
  end.

(** Walks down a handler, one operation at a time. *)
Ltac quiet_walk :=
  repeat first
    [ progress cbv zeta
    | quiet_leaf
    | apply quiet_bind; [quiet_leaf|intros]
    | match goal with
      | |- quiet _ (if ?b then _ else _) => destruct b
      | |- quiet _ (write_BOT_STATS _ _ ≫= _) =>
          apply quiet_bind; [apply quiet_assign; discriminate|intros]
      end ].

Section Uploads.

Context `{PyLib} (cfg : Config).

Lemma handle_photo_pending update : pending "photos" (handle_photo cfg update).
Proof.
  unfold handle_photo.
  apply quiet_then_pending; [quiet_leaf|intros m]. cbv zeta.
  apply quiet_then_pending; [quiet_leaf|intros ps].
  apply quiet_then_pending; [quiet_leaf|intros file].
  apply quiet_then_pending; [quiet_leaf|intros _].
  apply (pending_increment "photos"). intros n. quiet_walk.
Qed.

Lemma handle_document_pending update :
  within_limit update -> pending "documents" (handle_document cfg update).
Proof.
  intros Hfit. unfold handle_document, within_limit in *.
  destruct update as [m|m|m|m|q]; try exact I. bind_cbn.
  destruct (document m) as [doc|]; [|exact I]. bind_cbn.
  destruct (doc_file_size doc) as [size|]; [|exact I]. bind_cbn.
  assert ((size >? MAX_FILE_SIZE) = false) as ->
    by (rewrite Z.gtb_ltb; apply Z.ltb_ge; lia).
  apply quiet_then_pending; [quiet_leaf|intros file]. cbv zeta.
  apply quiet_then_pending; [quiet_leaf|intros _].
  apply (pending_increment "documents"). intros n. quiet_walk.
Qed.

Lemma keyword_scan_quiet key update m subject table :
  quiet key (keyword_scan update m subject table).
Proof.
  induction table as [|[pattern replies] table IH]; [exact I|].
  cbn [keyword_scan]. quiet_walk. exact IH.
Qed.

Lemma admin_only_quiet key func update :
  (forall u, quiet key (func u)) -> quiet key (admin_only cfg func update).
Proof.
  intros Hfunc. unfold admin_only.
  apply quiet_bind; [apply quiet_user|intros user].
  destruct (negb _); [quiet_walk|apply Hfunc].
Qed.

Lemma handle_photo_quiet key update :
  key <> "photos" -> quiet key (handle_photo cfg update).
Proof.
  intros Hne. unfold handle_photo. quiet_walk.
  apply quiet_bind; [apply quiet_assign; congruence|intros]. quiet_walk.
Qed.

Lemma handle_document_quiet key update :
  key <> "documents" -> quiet key (handle_document cfg update).
Proof.
  intros Hne. unfold handle_document. quiet_walk.
  apply quiet_bind; [apply quiet_assign; congruence|intros]. quiet_walk.
Qed.

(** Apart from the two upload handlers no handler assigns a counter. *)
Lemma body_quiet key f update :
  (f = Fn.handle_photo -> key <> "photos") ->
  (f = Fn.handle_document -> key <> "documents") ->
  quiet key (body cfg f update).
Proof.
  intros Hphoto Hdoc. destruct f; cbn [body].
  - unfold start. quiet_walk.
  - unfold help_command. quiet_walk.
  - unfold getmyid. quiet_walk.
  - apply admin_only_quiet. intros u. unfold toggleforward_body. quiet_walk.
  - apply admin_only_quiet. intros u. unfold getstats_body. quiet_walk.
  - unfold menu. quiet_walk.
  - unfold handle_buttons. destruct update; quiet_walk.
  - apply handle_photo_quiet; auto.
  - apply handle_document_quiet; auto.
  - unfold keyword_reply. quiet_walk. apply keyword_scan_quiet.
  - unfold handle_message. quiet_walk.
Qed.

End Uploads.

Lemma upload_tags_count uploads others :
  bumped (upload_tags uploads others) = O /\
  todo (upload_tags uploads others) = length uploads.
Proof.
  unfold upload_tags. induction uploads as [|u uploads [IHb IHt]]; cbn.
  - induction others as [|o others [IHb IHt]]; cbn; auto.
  - split; [exact IHb|now f_equal].
Qed.

Lemma upload_pool_fits `{PyLib} cfg cat uploads others :
  Forall (storable cat) uploads ->
  Forall (fun o => o.1 <> upload_handler cat) others ->
  Forall2 (fits (counter cat)) (upload_tags uploads others)
    (upload_pool cfg cat uploads others).
Proof.
  intros Hup Hothers. unfold upload_tags, upload_pool.
  apply Forall2_app.
  - induction Hup as [|u uploads Hu _ IH]; constructor; [|exact IH].
    destruct cat; cbn [fits counter upload_handler body].
    + apply handle_photo_pending.
    + now apply handle_document_pending.
  - induction Hothers as [|[f u] others Hf _ IH]; constructor; [|exact IH].
    cbn [fits fst snd] in *. apply body_quiet; intros ->; destruct cat; cbn in *;
      congruence.
Qed.

(** C8: in a pool of one event loop, N uploads of one category run next to
    any other handlers under any schedule of turns; once the N uploads
    have returned, the category's counter is its starting value plus N,
    so from the module's initial globals it is exactly N. *)
Theorem concurrent_uploads_counted `{PyLib} (cfg : Config) (cat : category)
    (uploads : list Update) (others : list (Fn.name * Update))
    (schedule : list Turn) (g g' : Globals) (tasks' : list (coro unit)) (v0 : Z) :
  BOT_STATS g !! counter cat = Some v0 ->
  Forall (storable cat) uploads ->
  Forall (fun o => o.1 <> upload_handler cat) others ->
  pool_run schedule (g, upload_pool cfg cat uploads others) = Some (g', tasks') ->
  Forall (fun c => c = Ret tt) (take (length uploads) tasks') ->
  BOT_STATS g' !! counter cat = Some (v0 + Z.of_nat (length uploads)) /\
  (forall auto_forward, g = initial_globals auto_forward ->
     BOT_STATS g' !! counter cat = Some (Z.of_nat (length uploads))).
Proof.
  intros Hv0 Hup Hothers Hrun Hret.
  destruct (upload_tags_count uploads others) as [Hb0 Ht0].
  assert (Hinit : counted (counter cat) v0 (g, upload_pool cfg cat uploads others)
                    (upload_tags uploads others)).
  { split; cbn [fst snd]; [now apply upload_pool_fits|].
    rewrite Hb0, Hv0. f_equal. lia. }
  destruct (counted_run (counter cat) v0 schedule _ _ _ Hinit Hrun)
    as (tags' & Hlater & Hfits & Hcount).
  cbn [fst snd] in *.
  rewrite (uploads_returned_bumped (counter cat) _ _ _ _ Hlater Hfits Hret)
    in Hcount.
  split; [exact Hcount|].
  intros auto_forward ->. rewrite Hcount. f_equal.
  assert (v0 = 0) as -> by (destruct cat; vm_compute in Hv0; congruence).
  lia.
Qed.

(** * Forwarding to the owner *)

Section Forwarding.

Context `{PyLib} (cfg : Config).

Lemma run_forward_if_enabled (send : Z -> call) (rest : coro unit) w n g :
  run (forward_if_enabled cfg send;; rest) w n g =
  match forward_target cfg g with
  | Some owner =>
      emit (Called (send owner))
        match api w n (send owner) with
        | inr _ => run rest w (S n) g
        | inl e => stop (inl e) g
        end
  | None => run rest w n g
  end.
Proof.
  unfold forward_if_enabled, forward_target.
  destruct (OWNER_ID cfg) as [owner|]; [|reflexivity].
  destruct (negb (owner =? 0)); [|reflexivity].
  coro_cbn. cbn [run andb]. destruct (AUTO_FORWARD g); [|reflexivity].
  coro_cbn. cbn [run]. now destruct (api w n (send owner)).
Qed.


End Forwarding.

Section ForwardingDocuments.

Context `{PyLib} (cfg : Config).

(** The same for a document within the size limit. *)
Lemma handle_document_stored m doc size file v w n g :
  document m = Some doc ->
  doc_file_size doc = Some size ->
  size <= MAX_FILE_SIZE ->
  api w n (get_file (doc_file_id doc)) = inr file ->
  (exists u, api w (S n)
     (download_to_drive file FILES_DIR
        (sanitize_filename
           (pretty (user_id (from_user m)) +:+ "_" +:+
            fmt_opt (doc_file_name doc)))) = inr u) ->
  BOT_STATS g !! "documents" = Some v ->
  let r := run (handle_document cfg (MessageUpdate m)) w n g in
  let caption := "📄 File from " +:+ pretty (user_id (from_user m)) in
  BOT_STATS (globals_after r) !! "documents" = Some (v + 1) /\
  (forall owner,
     send_document owner (doc_file_id doc) caption ∈ calls (trace r) <->
     forward_target cfg (set_BOT_STATS "documents" (v + 1) g) = Some owner) /\
  forwarded (trace r) =
    bool_decide (is_Some (forward_target cfg (set_BOT_STATS "documents" (v + 1) g))).
Proof.
  intros Hdoc Hsize Hfit Hfile [u Hdown] Hv r caption. subst r.
  unfold handle_document. coro_cbn. rewrite Hdoc. coro_cbn. rewrite Hsize.
  coro_cbn.
  assert ((size >? MAX_FILE_SIZE) = false) as ->
    by (rewrite Z.gtb_ltb; apply Z.ltb_ge; lia).
  run_cbn. rewrite Hfile. run_cbn. rewrite Hdown. run_cbn. rewrite Hv. run_cbn.
  match goal with
  | |- context [run ?c w (S (S n)) ?g1] =>
      change c with
        (forward_if_enabled cfg
           (fun owner => send_document owner (doc_file_id doc) caption);;
         await (reply_text (chat_id m)
                  ("📄 Saved `" +:+
                   sanitize_filename
                     (pretty (user_id (from_user m)) +:+ "_" +:+
                      fmt_opt (doc_file_name doc)) +:+ "`")
                  (Some "Markdown") None))
  end.
  rewrite run_forward_if_enabled.
  destruct (forward_target cfg _) as [owner|] eqn:Htarget;
    repeat (run_cbn;
            match goal with
            | |- context [api w ?i ?c] => destruct (api w i c) as [?|?]
            end);
    run_cbn; cbn [emit stop globals_after trace];
    (split; [apply lookup_insert_eq|]); (split; [|reflexivity]);
    intros owner'; cbn; rewrite !elem_of_cons, elem_of_nil;
    (split;
     [ intros Hin; repeat destruct Hin as [Hin|Hin];
       first [congruence|contradiction]
     | intros Heq; try discriminate; injection Heq as <-; tauto ]).
Qed.


Lemma forward_target_none g : OWNER_ID cfg = None -> forward_target cfg g = None.
Proof. intros Hnone. unfold forward_target. now rewrite Hnone. Qed.

End ForwardingDocuments.

(** * Toggling *)

Section Toggling.

Context `{PyLib}.






End Toggling.


(** * Scenarios

    The model evaluated on concrete configurations, with [literal_lib] for
    the library and oracles under which every call succeeds. *)

Section Scenarios.

#[local] Existing Instance literal_lib.

Example greeting_first_entry :
calls (trace (run (process_update greeting_cfg (MessageUpdate (text_message "Hello there")))
                (calm 5) 0 (initial_globals true))) =
[reply_text 7 "hi!" None None].
Proof. vm_compute. reflexivity. Qed.

Example greeting_swapped_first_entry :
calls (trace (run (process_update greeting_cfg_swapped
                     (MessageUpdate (text_message "Hello there")))
                (calm 5) 0 (initial_globals true))) =
[reply_text 7 "other" None None].
Proof. vm_compute. reflexivity. Qed.

(** The first scenario: a document of 1 MiB named report.pdf from sender 7
  is stored as 7_report.pdf, counted, and copied to chat 42. *)
Example small_document_stored :
let r := run (process_update scenario_cfg
                (MessageUpdate (document_message "report.pdf" (1024 * 1024))))
           (calm 0) 0 (initial_globals true) in
calls (trace r) =
  [ get_file "BQAC";
    download_to_drive {| file_id := "BQAC" |} FILES_DIR "7_report.pdf";
    send_document 42 "BQAC" "📄 File from 7";
    reply_text 7 "📄 Saved `7_report.pdf`" (Some "Markdown") None ] /\
BOT_STATS (globals_after r) !! "documents" = Some 1.
Proof. vm_compute. split; reflexivity. Qed.

Lemma oversized_document_rejected_witness :
  MAX_FILE_SIZE = 20971520 /\
  run
    (handle_document scenario_cfg
       (MessageUpdate (document_message "big.iso" (25 * 1024 * 1024))))
    (calm 0) 0 (initial_globals true) =
  replied_only (reply_text 7 "⚠️ File too large." None None) (calm 0) 0
    (initial_globals true).
Proof.
  apply (oversized_document_rejected scenario_cfg
           (document_message "big.iso" (25 * 1024 * 1024))
           {| doc_file_id := "BQAC"; doc_file_name := Some "big.iso";
              doc_file_size := Some (25 * 1024 * 1024) |}
           (25 * 1024 * 1024) (calm 0) 0%nat (initial_globals true));
    [reflexivity | reflexivity | vm_compute; reflexivity].
Defined.


Lemma keyword_first_match_wins_witness :
  let m := text_message "Hello there" in
  let subject := str_lower (default "" (text m)) in
  let r := run (keyword_reply farewell_cfg (MessageUpdate m)) (calm 5) 0
             (initial_globals true) in
  searches (trace r) =
    (fun e => (e.1, subject)) <$> ([("bye", ["see you"])] ++ [("hello", ["hi!"])]) /\
  (["hi!"] <> [] ->
   exists reply,
     ["hi!"] !! (dice (calm 5) 0 mod length ["hi!"])%nat = Some reply /\
     calls (trace r) = [reply_text (chat_id m) reply None None]) /\
  (forall reply, ["hi!"] = [reply] ->
     calls (trace r) = [reply_text (chat_id m) reply None None]) /\
  globals_after r = initial_globals true.
Proof.
  apply (keyword_first_match_wins farewell_cfg (text_message "Hello there")
           [("bye", ["see you"])] [("h", ["other"])] "hello" ["hi!"]
           (calm 5) 0%nat (initial_globals true)).
  - reflexivity.
  - intros p rs Hin. apply list_elem_of_singleton in Hin. injection Hin as -> ->.
    reflexivity.
  - reflexivity.
Defined.

Lemma unmatched_text_no_reply_witness :
  let r := run (process_update greeting_cfg (MessageUpdate (text_message "Good day")))
             (calm 0) 0 (initial_globals true) in
  calls (trace r) = [] /\ outcome r = inr tt /\ globals_after r = initial_globals true /\
  (Fn.handle_message ∉ callback_of <$> main_handlers) /\
  (forall update, dispatch update <> Some Fn.handle_message) /\
  ("Good day" <> "" ->
   dispatch (MessageUpdate (text_message "Good day")) = Some Fn.keyword_reply).
Proof.
  apply (unmatched_text_no_reply greeting_cfg (text_message "Good day") "Good day"
           (calm 0) 0%nat (initial_globals true));
    try reflexivity.
  intros p rs Hin. cbn in Hin.
  apply elem_of_cons in Hin as [Hin|Hin]; [injection Hin as -> ->; reflexivity|].
  apply list_elem_of_singleton in Hin. injection Hin as -> ->. reflexivity.
Defined.

Example interleaved_end_flag : AUTO_FORWARD interleaved_end.1 = false.
Proof. vm_compute. reflexivity. Qed.

Lemma concurrent_uploads_counted_witness :
  BOT_STATS interleaved_end.1 !! counter Photos =
    Some (0 + Z.of_nat (length interleaved_uploads)) /\
  (forall auto_forward,
     initial_globals true = initial_globals auto_forward ->
     BOT_STATS interleaved_end.1 !! counter Photos =
       Some (Z.of_nat (length interleaved_uploads))).
Proof.
  apply (concurrent_uploads_counted scenario_cfg Photos interleaved_uploads
           interleaved_others interleaved (initial_globals true)
           interleaved_end.1 interleaved_end.2 0).
  - reflexivity.
  - repeat constructor.
  - repeat constructor. discriminate.
  - vm_compute. reflexivity.
  - vm_compute. repeat constructor.
Defined.



(** The toggle of that scenario is a toggle: it is sent by the one who
    passes [is_admin], goes to [toggleforward], and is answered with the
    new state. *)
Example zero_toggle_by_admin :
  Forall (fun t => by_admin owner_zero_cfg t.1) zero_toggle /\
  Nat.odd (length zero_toggle) = true /\
  dispatch (MessageUpdate (command_message owner0 "toggleforward")) =
    Some Fn.toggleforward /\
  calls (trace (run (process_update owner_zero_cfg
                       (MessageUpdate (command_message owner0 "toggleforward")))
                  (calm 0) 0 (initial_globals false))) =
    [reply_text 0 "Auto-forward ✅ ON" None None].
Proof.
  split; [repeat constructor; exists owner0; split; reflexivity|].
  vm_compute. repeat split; reflexivity.
Qed.

(** C6 at the configuration [OWNER_ID=0], [AUTO_FORWARD=1]: an owner
    identity is configured ([is_admin] accepts the sender [0]) and the flag
    is on, yet a stored photo and a stored document are each answered
    without any copy to the owner. *)
Theorem owner_zero_forward_skipped :
  OWNER_ID owner_zero_cfg = Some 0 /\
  is_admin (OWNER_ID owner_zero_cfg) 0 = true /\
  AUTO_FORWARD (initial_globals (load_AUTO_FORWARD (Some "1"))) = true /\
  calls (trace (run (handle_photo owner_zero_cfg (MessageUpdate photo_message))
                  (calm 0) 0 (initial_globals true))) =
    [ get_file "AgAC-large";
      download_to_drive {| file_id := "AgAC-large" |} PHOTOS_DIR
        "photo_7_AgAC-large.jpg";
      reply_text 7 "📸 Saved as `photo_7_AgAC-large.jpg`" (Some "Markdown") None ] /\
  calls (trace (run (handle_document owner_zero_cfg
                       (MessageUpdate (document_message "report.pdf" (1024 * 1024))))
                  (calm 0) 0 (initial_globals true))) =
    [ get_file "BQAC";
      download_to_drive {| file_id := "BQAC" |} FILES_DIR "7_report.pdf";
      reply_text 7 "📄 Saved `7_report.pdf`" (Some "Markdown") None ].
Proof. vm_compute. repeat split; reflexivity. Qed.

(** The same uploads under owner 42 are forwarded. *)
Example owner_42_forwarded :
  calls (trace (run (handle_photo scenario_cfg (MessageUpdate photo_message))
                  (calm 0) 0 (initial_globals true))) =
    [ get_file "AgAC-large";
      download_to_drive {| file_id := "AgAC-large" |} PHOTOS_DIR
        "photo_7_AgAC-large.jpg";
      send_photo 42 "AgAC-large" "📸 Photo from 7";
      reply_text 7 "📸 Saved as `photo_7_AgAC-large.jpg`" (Some "Markdown") None ].
Proof. vm_compute. reflexivity. Qed.

End Scenarios.

(** * Further properties of the module

    ** The sanitizer *)

Lemma map_fixed f p s :
  (forall c, p c = true -> f c = c) -> PyStr.all p s = true -> PyStr.map f s = s.
Proof.
  intros Hf. induction s as [|c s IH]; cbn; [reflexivity|].
  intros [Hc Hs]%andb_true_iff. now rewrite (Hf c Hc), IH.
Qed.

Lemma filter_fixed p s : PyStr.all p s = true -> PyStr.filter p s = s.
Proof.
  induction s as [|c s IH]; cbn; [reflexivity|].
  intros [-> Hs]%andb_true_iff. now rewrite IH.
Qed.

Lemma take_fixed n s : (String.length s <= n)%nat -> PyStr.take n s = s.
Proof.
  revert s; induction n as [|n IH]; intros [|c s]; cbn; try reflexivity; try lia.
  intros Hlen. rewrite IH; [reflexivity|lia].
Qed.

Lemma stripped_fixed s : PyStr.all allow_set s = true -> stripped s = s.
Proof.
  intros Hs. unfold stripped.
  rewrite (map_fixed _ allow_set) by
    (assumption || (intros c Hc; now rewrite (allow_set_no_separator c Hc))).
  now apply filter_fixed.
Qed.

Lemma stripped_allowed s : PyStr.all allow_set (stripped s) = true.
Proof. unfold stripped. now apply all_filter. Qed.

Lemma map_app_str f a b : PyStr.map f (a +:+ b) = PyStr.map f a +:+ PyStr.map f b.
Proof. induction a as [|c a IH]; simpl; [reflexivity|]. now rewrite IH. Qed.

Lemma filter_app_str p a b :
  PyStr.filter p (a +:+ b) = PyStr.filter p a +:+ PyStr.filter p b.
Proof.
  induction a as [|c a IH]; simpl; [reflexivity|].
  destruct (p c); simpl; now rewrite IH.
Qed.

Lemma stripped_app a b : stripped (a +:+ b) = stripped a +:+ stripped b.
Proof. unfold stripped. now rewrite map_app_str, filter_app_str. Qed.

Lemma all_app p a b :
  PyStr.all p (a +:+ b) = PyStr.all p a && PyStr.all p b.
Proof. induction a as [|c a IH]; simpl; [reflexivity|]. now rewrite IH, andb_assoc. Qed.

Lemma sanitize_stripped name : sanitize_filename name = PyStr.take 200 (stripped name).
Proof. apply sanitize_filename_unfold. Qed.

(** X1: the names the sanitizer leaves alone are exactly those made of
    allowed characters and at most 200 long. *)
Theorem sanitize_filename_fixed_points (name : string) :
  sanitize_filename name = name <->
  PyStr.all allow_set name = true /\ (String.length name <= 200)%nat.
Proof.
  rewrite sanitize_stripped. split.
  - intros Hfix. split.
    + rewrite <- Hfix. apply all_take, stripped_allowed.
    + rewrite <- Hfix. apply take_length.
  - intros [Hall Hlen]. rewrite (stripped_fixed _ Hall). now apply take_fixed.
Qed.

(** X2: sanitizing twice is sanitizing once. *)
Theorem sanitize_filename_idempotent (name : string) :
  sanitize_filename (sanitize_filename name) = sanitize_filename name.
Proof.
  rewrite !sanitize_stripped.
  rewrite (stripped_fixed (PyStr.take 200 (stripped name)))
    by apply all_take, stripped_allowed.
  apply take_fixed, take_length.
Qed.

(** ** Decimal numbers: [f"{n}"] and [int(s)] *)

Lemma pretty_N_char_digit d : is_digit (pretty_N_char d) = true.
Proof. unfold pretty_N_char. repeat case_match; reflexivity. Qed.

Lemma pretty_N_char_value d :
  (d < 10)%N -> Z.of_N (N_of_ascii (pretty_N_char d)) - 48 = Z.of_N d.
Proof.
  intros Hd.
  assert (d = 0 \/ d = 1 \/ d = 2 \/ d = 3 \/ d = 4 \/ d = 5 \/ d = 6 \/ d = 7 \/
          d = 8 \/ d = 9)%N as Hcases by lia.
  repeat destruct Hcases as [->|Hcases]; try subst d; reflexivity.
Qed.

Lemma pretty_N_go_digits x s :
  PyStr.all is_digit s = true -> PyStr.all is_digit (pretty_N_go x s) = true.
Proof.
  revert s. induction (N.lt_wf_0 x) as [x _ IH]; intros s Hs.
  assert (x = 0 \/ 0 < x)%N as [->|Hpos] by lia; [now rewrite pretty_N_go_0|].
  rewrite pretty_N_go_step by assumption.
  apply IH; [now apply N.div_lt|]. cbn. now rewrite pretty_N_char_digit.
Qed.

Lemma pretty_N_go_length x s :
  (String.length s <= String.length (pretty_N_go x s))%nat.
Proof.
  revert s. induction (N.lt_wf_0 x) as [x _ IH]; intros s.
  assert (x = 0 \/ 0 < x)%N as [->|Hpos] by lia; [now rewrite pretty_N_go_0|].
  rewrite pretty_N_go_step by assumption.
  etransitivity; [|apply IH; now apply N.div_lt]. cbn. lia.
Qed.

Lemma pretty_N_go_value x s :
  int_of_digits 0 (pretty_N_go x s) = int_of_digits (Z.of_N x) s.
Proof.
  revert s. induction (N.lt_wf_0 x) as [x _ IH]; intros s.
  assert (x = 0 \/ 0 < x)%N as [->|Hpos] by lia; [now rewrite pretty_N_go_0|].
  rewrite pretty_N_go_step by assumption.
  rewrite IH by now apply N.div_lt. cbn [int_of_digits].
  rewrite pretty_N_char_value by now apply N.mod_lt.
  f_equal. rewrite (N.div_mod x 10) at 3 by lia. lia.
Qed.

Lemma pretty_nonneg_digits z :
  0 <= z ->
  PyStr.all is_digit (pretty z) = true /\ pretty z <> "" /\
  int_of_digits 0 (pretty z) = z.
Proof.
  intros Hz. destruct z as [|p|p]; [now split|..|lia].
  unfold pretty, pretty_Z, pretty, pretty_positive, pretty, pretty_N.
  destruct (decide (N.pos p = 0%N)) as [|_]; [discriminate|].
  split; [now apply pretty_N_go_digits|]. split.
  - rewrite pretty_N_go_step by lia. intros Hempty.
    pose proof (pretty_N_go_length (N.pos p `div` 10)
                  (String (pretty_N_char (N.pos p `mod` 10)) "")) as Hlen.
    rewrite Hempty in Hlen. cbn in Hlen. lia.
  - now rewrite pretty_N_go_value.
Qed.

Lemma digit_allowed c : is_digit c = true -> allow_set c = true.
Proof. destruct c as [[] [] [] [] [] [] [] []]; vm_compute; congruence. Qed.

Lemma all_weaken (p q : ascii -> bool) s :
  (forall c, p c = true -> q c = true) -> PyStr.all p s = true -> PyStr.all q s = true.
Proof.
  intros Hpq. induction s as [|c s IH]; cbn; [reflexivity|].
  intros [Hc Hs]%andb_true_iff. now rewrite (Hpq c Hc), IH.
Qed.

(** The decimal form of any integer survives the sanitizer. *)
Lemma pretty_allowed (z : Z) : PyStr.all allow_set (pretty z) = true.
Proof.
  destruct z as [|p|p]; [reflexivity|..].
  - apply (all_weaken is_digit); [apply digit_allowed|].
    now apply (pretty_nonneg_digits (Z.pos p)).
  - change (pretty (Z.neg p)) with ("-" +:+ pretty (Z.pos p)).
    rewrite all_app. apply andb_true_iff. split; [reflexivity|].
    apply (all_weaken is_digit); [apply digit_allowed|].
    now apply (pretty_nonneg_digits (Z.pos p)).
Qed.

Lemma all_digits_nonneg s acc :
  0 <= acc -> PyStr.all is_digit s = true -> 0 <= int_of_digits acc s.
Proof.
  revert acc. induction s as [|c s IH]; intros acc Hacc; cbn; [auto|].
  intros [Hc Hs]%andb_true_iff. apply IH; [|assumption].
  unfold is_digit in Hc. apply andb_true_iff in Hc as [Hlo _].
  apply N.leb_le in Hlo. lia.
Qed.

(** X3: the id that [/getmyid] shows, given as [OWNER_ID], is loaded as
    that very id, and its owner passes [is_admin]. *)
Theorem getmyid_configures_owner `{PyLib} (m : Message) (w : Oracle) (n : nat)
    (g : Globals) :
  0 <= user_id (from_user m) ->
  let shown := pretty (user_id (from_user m)) in
  calls (trace (run (getmyid (MessageUpdate m)) w n g)) =
    [reply_text (chat_id m) ("🆔 Your ID: `" +:+ shown +:+ "`") (Some "Markdown") None] /\
  load_OWNER_ID (Some shown) = Some (user_id (from_user m)) /\
  is_admin (load_OWNER_ID (Some shown)) (user_id (from_user m)) = true.
Proof.
  intros Hid shown.
  destruct (pretty_nonneg_digits _ Hid) as (Hdigits & Hne & Hvalue).
  assert (Hload : load_OWNER_ID (Some shown) = Some (user_id (from_user m))).
  { unfold load_OWNER_ID, shown. destruct (pretty _) as [|c s] eqn:Hshown; [congruence|].
    now rewrite Hdigits, Hvalue. }
  split; [|split; [exact Hload|]].
  - unfold getmyid. run_cbn. now destruct (api w n _).
  - rewrite Hload. cbn. apply Z.eqb_refl.
Qed.

(** X4: for a value of [OWNER_ID] in the environment made of ASCII
    characters, only a non-negative id, given by a non-empty value of the
    digits 0-9 alone, can ever pass [is_admin]; an unset or empty value,
    or one with a sign, a space or a letter, configures no owner and
    nobody is admin. *)
Theorem only_digit_owner_is_admin (env : option string) (user : Z) :
  (forall s, env = Some s -> ascii_only s = true) ->
  is_admin (load_OWNER_ID env) user = true ->
  0 <= user /\ exists s, env = Some s /\ s <> "" /\ PyStr.all is_digit s = true.
Proof.
  intros _.
  unfold load_OWNER_ID. destruct env as [[|c s]|]; try discriminate.
  destruct (PyStr.all is_digit (String c s)) eqn:Hdigits; [|discriminate].
  cbn [is_admin]. intros ->%Z.eqb_eq. split.
  - now apply all_digits_nonneg.
  - exists (String c s). now repeat split.
Qed.

(** ** The names of stored files *)

Lemma photo_name (id : Z) (fid : string) :
  sanitize_filename ("photo_" +:+ pretty id +:+ "_" +:+ fid +:+ ".jpg") =
  PyStr.take 200 ("photo_" +:+ pretty id +:+ "_" +:+ stripped fid +:+ ".jpg").
Proof.
  rewrite sanitize_stripped, !stripped_app.
  now rewrite (stripped_fixed (pretty id)) by apply pretty_allowed.
Qed.

Lemma document_name (id : Z) (declared : string) :
  sanitize_filename (pretty id +:+ "_" +:+ declared) =
  PyStr.take 200 (pretty id +:+ "_" +:+ stripped declared).
Proof.
  rewrite sanitize_stripped, !stripped_app.
  now rewrite (stripped_fixed (pretty id)) by apply pretty_allowed.
Qed.

Lemma calls_emit_called {A} c (r : Result A) :
  calls (trace (emit (Called c) r)) = c :: calls (trace r).
Proof. reflexivity. Qed.

Lemma calls_emit_logged {A} lvl msg (r : Result A) :
  calls (trace (emit (Logged lvl msg) r)) = calls (trace r).
Proof. reflexivity. Qed.

(** X5: [handle_photo] fetches the last size of the photo and writes it in
    the photos directory under [photo_<sender>_<file id>.jpg], where the
    sender's id is kept as it is, the file id loses what the sanitizer
    strips, and the whole is cut at 200 characters. *)
Theorem handle_photo_file_name `{PyLib} (cfg : Config) (m : Message)
    (sizes : list PhotoSize) (ps : PhotoSize) (file : File) (w : Oracle)
    (n : nat) (g : Globals) :
  photo m = sizes ++ [ps] ->
  api w n (get_file (photo_file_id ps)) = inr file ->
  let cs := calls (trace (run (handle_photo cfg (MessageUpdate m)) w n g)) in
  cs !! 0%nat = Some (get_file (photo_file_id ps)) /\
  cs !! 1%nat =
    Some (download_to_drive file PHOTOS_DIR
            (PyStr.take 200
               ("photo_" +:+ pretty (user_id (from_user m)) +:+ "_" +:+
                stripped (file_id file) +:+ ".jpg"))).
Proof.
  intros Hphoto Hfile cs. subst cs.
  unfold handle_photo. run_cbn. rewrite Hphoto, last_snoc. run_cbn.
  rewrite Hfile. run_cbn. rewrite photo_name, !calls_emit_called.
  split; reflexivity.
Qed.

(** X6: a document within the size limit is written in the files directory
    under [<sender>_<declared name>], where the sender's id is kept as it
    is, the declared name loses what the sanitizer strips (a missing name
    reads [None]), and the whole is cut at 200 characters. *)
Theorem handle_document_file_name `{PyLib} (cfg : Config) (m : Message)
    (doc : Document) (size : Z) (file : File) (w : Oracle) (n : nat)
    (g : Globals) :
  document m = Some doc ->
  doc_file_size doc = Some size ->
  size <= MAX_FILE_SIZE ->
  api w n (get_file (doc_file_id doc)) = inr file ->
  let cs := calls (trace (run (handle_document cfg (MessageUpdate m)) w n g)) in
  cs !! 0%nat = Some (get_file (doc_file_id doc)) /\
  cs !! 1%nat =
    Some (download_to_drive file FILES_DIR
            (PyStr.take 200
               (pretty (user_id (from_user m)) +:+ "_" +:+
                stripped (default "None" (doc_file_name doc))))).
Proof.
  intros Hdoc Hsize Hfit Hfile cs. subst cs.
  unfold handle_document. run_cbn. rewrite Hdoc. run_cbn. rewrite Hsize. run_cbn.
  assert ((size >? MAX_FILE_SIZE) = false) as ->
    by (rewrite Z.gtb_ltb; apply Z.ltb_ge; lia).
  run_cbn. rewrite Hfile. run_cbn. rewrite document_name, !calls_emit_called.
  split; reflexivity.
Qed.

(** ** Failures *)

Lemma run_catch_log `{PyLib} {A} (c : coro A) lvl msg (a : A) w i g :
  let r := run c w i g in
  run (catch c (fun _ => Log lvl msg (Ret a))) w i g =
  {| outcome := inr (match outcome r with inr x => x | inl _ => a end);
     globals_after := globals_after r;
     trace := trace r ++ match outcome r with
                         | inl _ => [Logged lvl msg]
                         | inr _ => []
                         end |}.
Proof.
  revert i g; induction c as [| | k IH | b k IH | key' k IH | key' v' k IH
                             | lvl' msg' k IH | p s k IH | m k IH | c k IH];
    intros i g; cbn [run catch]; auto;
    rewrite IH; reflexivity.
Qed.

(** X7: no update ends with an exception.  When the handler chosen for it
    raises, the globals stay as the handler left them and the one thing
    added is the line [Bot error:] in the log: the error handler makes no
    call, so the sender is not told. *)
Theorem process_update_isolates_failures `{PyLib} (cfg : Config)
    (update : Update) (w : Oracle) (n : nat) (g : Globals) :
  let r' := run (process_update cfg update) w n g in
  outcome r' = inr tt /\
  match dispatch update with
  | Some f =>
      let r := run (body cfg f update) w n g in
      globals_after r' = globals_after r /\
      calls (trace r') = calls (trace r) /\
      trace r' = trace r ++ match outcome r with
                            | inl _ => [Logged ERROR "Bot error:"]
                            | inr _ => []
                            end
  | None => trace r' = [] /\ globals_after r' = g
  end.
Proof.
  intros r'. subst r'. unfold process_update.
  destruct (dispatch update) as [f|]; [|now cbn].
  unfold error_handler, logger_exception.
  rewrite (run_catch_log (body cfg f update) ERROR "Bot error:" tt w n g).
  cbn [outcome globals_after trace].
  split; [now destruct (outcome _) as [e|[]]|]. split; [reflexivity|].
  split; [|reflexivity].
  rewrite calls_app. destruct (outcome _); cbn; now rewrite app_nil_r.
Qed.

(** X8: when fetching a photo fails, at [get_file] or at the download,
    [handle_photo] ends with that exception, the globals are untouched
    (nothing is counted), and nothing but the fetch was called: no copy to
    the owner, no reply. *)
Theorem handle_photo_fetch_failure `{PyLib} (cfg : Config) (m : Message)
    (ps : PhotoSize) (e : exn) (w : Oracle) (n : nat) (g : Globals) :
  last (photo m) = Some ps ->
  api w n (get_file (photo_file_id ps)) = inl e \/
  (exists file,
     api w n (get_file (photo_file_id ps)) = inr file /\
     api w (S n)
       (download_to_drive file PHOTOS_DIR
          (sanitize_filename
             ("photo_" +:+ pretty (user_id (from_user m)) +:+ "_" +:+
              file_id file +:+ ".jpg"))) = inl e) ->
  let r := run (handle_photo cfg (MessageUpdate m)) w n g in
  outcome r = inl e /\ globals_after r = g /\
  forallb is_fetch (calls (trace r)) = true.
Proof.
  intros Hlast Hfail r. subst r.
  unfold handle_photo. run_cbn. rewrite Hlast. run_cbn.
  destruct Hfail as [Hget|(file & Hget & Hdown)]; rewrite Hget; run_cbn;
    [now cbn|].
  rewrite Hdown. run_cbn. now cbn.
Qed.

(** X9: when fetching a document within the size limit fails, at
    [get_file] or at the download, [handle_document] ends with that
    exception, the globals are untouched (nothing is counted), and nothing
    but the fetch was called: no copy to the owner, no reply. *)
Theorem handle_document_fetch_failure `{PyLib} (cfg : Config) (m : Message)
    (doc : Document) (size : Z) (e : exn) (w : Oracle) (n : nat) (g : Globals) :
  document m = Some doc ->
  doc_file_size doc = Some size ->
  size <= MAX_FILE_SIZE ->
  api w n (get_file (doc_file_id doc)) = inl e \/
  (exists file,
     api w n (get_file (doc_file_id doc)) = inr file /\
     api w (S n)
       (download_to_drive file FILES_DIR
          (sanitize_filename
             (pretty (user_id (from_user m)) +:+ "_" +:+
              fmt_opt (doc_file_name doc)))) = inl e) ->
  let r := run (handle_document cfg (MessageUpdate m)) w n g in
  outcome r = inl e /\ globals_after r = g /\
  forallb is_fetch (calls (trace r)) = true.
Proof.
  intros Hdoc Hsize Hfit Hfail r. subst r.
  unfold handle_document. run_cbn. rewrite Hdoc. run_cbn. rewrite Hsize. run_cbn.
  assert ((size >? MAX_FILE_SIZE) = false) as ->
    by (rewrite Z.gtb_ltb; apply Z.ltb_ge; lia).
  run_cbn.
  destruct Hfail as [Hget|(file & Hget & Hdown)]; rewrite Hget; run_cbn;
    [now cbn|].
  rewrite Hdown. run_cbn. now cbn.
Qed.

(** When the copy to the owner fails, the upload stays counted and the
    sender gets no confirmation. *)
Lemma forward_failure_run `{PyLib} (cfg : Config) (send : Z -> call)
    (rest : coro unit) (owner : Z) (e : exn) w n g :
  forward_target cfg g = Some owner ->
  api w n (send owner) = inl e ->
  run (forward_if_enabled cfg send;; rest) w n g =
  emit (Called (send owner)) (stop (inl e) g).
Proof.
  intros Htarget Hfail. rewrite run_forward_if_enabled, Htarget. now rewrite Hfail.
Qed.

(** X10: when a photo was fetched and written but the copy to the owner
    fails, [handle_photo] ends with that exception after the count: the
    photo counter is one higher and no reply was sent to the sender. *)
Theorem handle_photo_forward_failure `{PyLib} (cfg : Config) (m : Message)
    (ps : PhotoSize) (file : File) (v owner : Z) (e : exn) (w : Oracle)
    (n : nat) (g : Globals) :
  last (photo m) = Some ps ->
  api w n (get_file (photo_file_id ps)) = inr file ->
  (exists u, api w (S n)
     (download_to_drive file PHOTOS_DIR
        (sanitize_filename
           ("photo_" +:+ pretty (user_id (from_user m)) +:+ "_" +:+
            file_id file +:+ ".jpg"))) = inr u) ->
  BOT_STATS g !! "photos" = Some v ->
  forward_target cfg g = Some owner ->
  api w (S (S n))
    (send_photo owner (photo_file_id ps)
       ("📸 Photo from " +:+ pretty (user_id (from_user m)))) = inl e ->
  let r := run (handle_photo cfg (MessageUpdate m)) w n g in
  outcome r = inl e /\
  BOT_STATS (globals_after r) !! "photos" = Some (v + 1) /\
  existsb is_reply (calls (trace r)) = false.
Proof.
  intros Hlast Hfile [u Hdown] Hv Htarget Hsend r. subst r.
  unfold handle_photo. coro_cbn. rewrite Hlast. coro_cbn. cbn [run].
  rewrite Hfile. coro_cbn. cbn [run]. rewrite Hdown. coro_cbn. cbn [run].
  rewrite Hv. coro_cbn. cbn [run].
  match goal with
  | |- context [run ?c w (S (S n)) ?g1] =>
      change c with
        (forward_if_enabled cfg
           (fun owner => send_photo owner (photo_file_id ps)
                           ("📸 Photo from " +:+ pretty (user_id (from_user m))));;
         await (reply_text (chat_id m)
                  ("📸 Saved as `" +:+
                   sanitize_filename
                     ("photo_" +:+ pretty (user_id (from_user m)) +:+ "_" +:+
                      file_id file +:+ ".jpg") +:+ "`")
                  (Some "Markdown") None))
  end.
  rewrite (forward_failure_run cfg _ _ owner e) by assumption.
  cbn [emit stop outcome globals_after trace].
  split; [reflexivity|]. split; [apply lookup_insert_eq|reflexivity].
Qed.

(** ** What a run does to the globals *)

Section RunDiscipline.

Context `{PyLib}.

Lemma run_quiet {A} (key : string) (c : coro A) w i g :
  quiet key c ->
  BOT_STATS (globals_after (run c w i g)) !! key = BOT_STATS g !! key.
Proof.
  revert i g; induction c as [| | k IH | b k IH | key' k IH | key' v' k IH
                             | lvl msg k IH | p s k IH | m k IH | c k IH];
    intros i g Hq; cbn [run quiet emit stop globals_after] in *; auto.
  - exact (IH i (set_AUTO_FORWARD b g) Hq).
  - destruct Hq as [Hne Hq]. rewrite (IH i _ Hq). cbn. now apply lookup_insert_ne.
Qed.

Lemma run_bumping {A} (key : string) (v : Z) (c : coro A) w i g :
  bumping key v c ->
  BOT_STATS g !! key = Some v ->
  BOT_STATS (globals_after (run c w i g)) !! key = Some v \/
  BOT_STATS (globals_after (run c w i g)) !! key = Some (v + 1).
Proof.
  revert i g; induction c as [| | k IH | b k IH | key' k IH | key' v' k IH
                             | lvl msg k IH | p s k IH | m k IH | c k IH];
    intros i g Hb Hv; cbn [run bumping emit stop globals_after] in *; auto;
    try contradiction.
  destruct (decide (key' = key)) as [->|Hne].
  - destruct Hb as [-> Hq]. right. rewrite (run_quiet key k w i _ Hq).
    cbn. apply lookup_insert_eq.
  - apply IH; [assumption|]. cbn. now rewrite lookup_insert_ne.
Qed.

Lemma run_pending {A} (key : string) (v : Z) (c : coro A) w i g :
  pending key c ->
  BOT_STATS g !! key = Some v ->
  BOT_STATS (globals_after (run c w i g)) !! key = Some v \/
  BOT_STATS (globals_after (run c w i g)) !! key = Some (v + 1).
Proof.
  revert i g; induction c as [| | k IH | b k IH | key' k IH | key' v' k IH
                             | lvl msg k IH | p s k IH | m k IH | c k IH];
    intros i g Hp Hv; cbn [run pending emit stop globals_after] in *; auto;
    try contradiction.
  - destruct (Hp (BOT_STATS g !! key')) as [Hgo|(-> & v' & Hread & Hb)].
    + now apply IH.
    + assert (v' = v) as -> by congruence. now apply run_bumping.
  - destruct Hp as [Hne Hp]. apply IH; [assumption|].
    cbn. now rewrite lookup_insert_ne.
Qed.

Lemma run_flag_kept {A} (c : coro A) w i g :
  flag_kept c -> AUTO_FORWARD (globals_after (run c w i g)) = AUTO_FORWARD g.
Proof.
  revert i g; induction c as [| | k IH | b k IH | key' k IH | key' v' k IH
                             | lvl msg k IH | p s k IH | m k IH | c k IH];
    intros i g Hk; cbn [run flag_kept emit stop globals_after] in *; auto;
    try contradiction.
  exact (IH i (set_BOT_STATS key' v' g) Hk).
Qed.

End RunDiscipline.

Section FlagKept.

Context `{PyLib} (cfg : Config).

Lemma flag_bind {A B} (c : coro A) (f : A -> coro B) :
  flag_kept c -> (forall a, flag_kept (f a)) -> flag_kept (c ≫= f).
Proof.
  intros Hc Hf. unfold mbind, coro_mbind.
  induction c as [| | k IH | b k IH | key' k IH | key' v' k IH
                 | lvl msg k IH | p s k IH | m k IH | c k IH];
    cbn [coro_bind flag_kept] in *; auto.
Qed.

Lemma flag_await (c : call) : flag_kept (await c).
Proof. intros [e|r]; exact I. Qed.

Lemma flag_read_stat (key : string) : flag_kept (read_BOT_STATS key).
Proof. intros [v|]; exact I. Qed.

Lemma flag_read_flag : flag_kept read_AUTO_FORWARD.
Proof. intros b; exact I. Qed.

Lemma flag_write_stat key v : flag_kept (write_BOT_STATS key v).
Proof. exact I. Qed.

Lemma flag_log msg : flag_kept (logger_info msg).
Proof. exact I. Qed.

Lemma flag_search p s : flag_kept (re_search p s).
Proof. intros [b|]; exact I. Qed.

Lemma flag_choice seq : flag_kept (random_choice seq).
Proof.
  destruct seq as [|x seq]; [exact I|]. intros i. cbn. now destruct (_ !! _).
Qed.

Lemma flag_message update : flag_kept (the_message update).
Proof. now destruct update. Qed.

Lemma flag_user update : flag_kept (the_effective_user update).
Proof. unfold the_effective_user. now destruct (effective_user update). Qed.

Lemma flag_option {A} (o : option A) e : flag_kept (from_option Ret (Raise e) o).
Proof. now destruct o. Qed.

Lemma flag_forward send : flag_kept (forward_if_enabled cfg send).
Proof.
  unfold forward_if_enabled. destruct (OWNER_ID cfg) as [owner|]; [|exact I].
  destruct (negb _); [|exact I].
  apply flag_bind; [apply flag_read_flag|]. intros [|]; [|exact I].
  apply flag_bind; [apply flag_await|]. intros; exact I.
Qed.

End FlagKept.

Ltac flag_leaf :=
  lazymatch goal with
  | |- flag_kept (await _) => apply flag_await
  | |- flag_kept (read_BOT_STATS _) => apply flag_read_stat
  | |- flag_kept read_AUTO_FORWARD => apply flag_read_flag
  | |- flag_kept (write_BOT_STATS _ _) => apply flag_write_stat
  | |- flag_kept (logger_info _) => apply flag_log
  | |- flag_kept (re_search _ _) => apply flag_search
  | |- flag_kept (random_choice _) => apply flag_choice
  | |- flag_kept (the_message _) => apply flag_message
  | |- flag_kept (the_effective_user _) => apply flag_user
  | |- flag_kept (from_option Ret (Raise _) _) => apply flag_option
  | |- flag_kept (forward_if_enabled _ _) => apply flag_forward
  | |- flag_kept (Ret _) => exact I
  | |- flag_kept (Raise _) => exact I
  end.

Ltac flag_walk :=
  repeat first
    [ progress cbv zeta
    | flag_leaf
    | apply flag_bind; [flag_leaf|intros]
    | match goal with
      | |- flag_kept (if ?b then _ else _) => destruct b
      end ].

Section GlobalsKept.

Context `{PyLib} (cfg : Config).

Lemma keyword_scan_flag_kept update m subject table :
  flag_kept (keyword_scan update m subject table).
Proof.
  induction table as [|[pattern replies] table IH]; [exact I|].
  cbn [keyword_scan]. flag_walk. exact IH.
Qed.

Lemma body_flag_kept f update :
  f <> Fn.toggleforward -> flag_kept (body cfg f update).
Proof.
  intros Hf. destruct f; cbn [body]; try congruence.
  - unfold start. flag_walk.
  - unfold help_command. flag_walk.
  - unfold getmyid. flag_walk.
  - unfold getstats, admin_only.
    apply flag_bind; [apply flag_user|intros user].
    destruct (negb _); [flag_walk|].
    unfold getstats_body. flag_walk.
  - unfold menu. flag_walk.
  - unfold handle_buttons. destruct update; flag_walk.
  - unfold handle_photo. flag_walk.
  - unfold handle_document. flag_walk.
  - unfold keyword_reply. flag_walk. apply keyword_scan_flag_kept.
  - unfold handle_message. flag_walk.
Qed.

(** [handle_document] either counts itself once or, turned away, leaves
    its counter alone. *)
Lemma handle_document_pending_or_quiet update :
  pending "documents" (handle_document cfg update) \/
  quiet "documents" (handle_document cfg update).
Proof.
  destruct update as [m|m|m|m|q]; try (left; exact I).
  destruct (document m) as [doc|] eqn:Hdoc;
    [|left; apply handle_document_pending; cbn; now rewrite Hdoc].
  destruct (doc_file_size doc) as [size|] eqn:Hsize;
    [|left; apply handle_document_pending; cbn; now rewrite Hdoc, Hsize].
  destruct (size >? MAX_FILE_SIZE) eqn:Hcmp.
  - right. unfold handle_document. bind_cbn. rewrite Hdoc. bind_cbn.
    rewrite Hsize. bind_cbn. rewrite Hcmp. quiet_walk.
  - left. apply handle_document_pending. cbn. rewrite Hdoc, Hsize.
    rewrite Z.gtb_ltb in Hcmp. now apply Z.ltb_ge.
Qed.

End GlobalsKept.

(** X11: the flag [AUTO_FORWARD] is assigned by [toggleforward] and by no
    other handler: after any run of another handler, whatever the update
    and the answers from outside, it is what it was. *)
Theorem flag_changed_only_by_toggle `{PyLib} (cfg : Config) (f : Fn.name)
    (update : Update) (w : Oracle) (n : nat) (g : Globals) :
  f <> Fn.toggleforward ->
  AUTO_FORWARD (globals_after (run (body cfg f update) w n g)) = AUTO_FORWARD g.
Proof. intros Hf. now apply run_flag_kept, body_flag_kept. Qed.

(** X12: a counter of [BOT_STATS] is assigned by its own upload handler
    only: [handle_photo] leaves every entry but [photos] as it was,
    [handle_document] every entry but [documents], and every other handler
    the whole of [BOT_STATS]. *)
Theorem counter_changed_only_by_its_upload `{PyLib} (cfg : Config) (f : Fn.name)
    (key : string) (update : Update) (w : Oracle) (n : nat) (g : Globals) :
  (f = Fn.handle_photo -> key <> "photos") ->
  (f = Fn.handle_document -> key <> "documents") ->
  BOT_STATS (globals_after (run (body cfg f update) w n g)) !! key =
  BOT_STATS g !! key.
Proof. intros Hphoto Hdoc. now apply run_quiet, body_quiet. Qed.

(** X13: one run of a handler raises a counter by one or leaves it: for
    every handler, update and answers from outside, an entry of
    [BOT_STATS] holding [v] holds [v] or [v + 1] afterwards; no entry is
    removed and none goes down. *)
Theorem counter_grows_by_at_most_one `{PyLib} (cfg : Config) (f : Fn.name)
    (key : string) (v : Z) (update : Update) (w : Oracle) (n : nat) (g : Globals) :
  BOT_STATS g !! key = Some v ->
  BOT_STATS (globals_after (run (body cfg f update) w n g)) !! key = Some v \/
  BOT_STATS (globals_after (run (body cfg f update) w n g)) !! key = Some (v + 1).
Proof.
  intros Hv.
  destruct (decide (f = Fn.handle_photo /\ key = "photos")) as [[-> ->]|Hp].
  { apply run_pending; [apply handle_photo_pending|exact Hv]. }
  destruct (decide (f = Fn.handle_document /\ key = "documents")) as [[-> ->]|Hd].
  { destruct (handle_document_pending_or_quiet cfg update) as [Hpend|Hquiet].
    - now apply run_pending.
    - left. cbn [body]. now rewrite run_quiet. }
  left. rewrite run_quiet; [exact Hv|].
  apply body_quiet; intros -> ->; tauto.
Qed.

(** ** The registry *)

(** The callbacks that the registry can choose for an update with the
    effective message [m]. *)
Ltac serves_message m :=
  repeat case_bool_decide;
  cbn [negb andb fmap option_fmap option_map callback_of];
  intros [= <-]; cbn [serves effective_message]; eauto;
  try solve
    [ destruct (last (photo m)) as [ps|] eqn:Hlast;
      [eauto|apply last_None in Hlast; congruence] ];
  try solve
    [ match goal with
      | Hd : is_Some (document m) |- _ => destruct Hd as [doc Hdoc]
      end; eauto ];
  destruct (text m) as [t|] eqn:Htext; cbn [default] in *; [|congruence];
  exists m, t; repeat split; auto;
  [ destruct (command m) as [c|]; [exfalso; eauto|reflexivity]
  | destruct (document m) as [d|] eqn:Hd; [exfalso; eauto|reflexivity] ].

(** X14: [main] hands each callback only updates of its kind: a command
    callback a new or an edited message that starts with its command, in
    any letter case; [handle_buttons] a callback query; [handle_photo] an
    update whose effective message (a new message, an edited one, a
    channel post or a message of a business account) has a non-empty photo
    list; [handle_document] one whose
    effective message has a document and no photo; [keyword_reply] one
    whose effective message has non-empty text and no command, photo or
    document; [handle_message] gets nothing. *)
Theorem dispatch_serves (update : Update) (f : Fn.name) :
  dispatch update = Some f -> serves f update.
Proof.
  unfold dispatch, main_handlers.
  destruct update as [m|m|m|m|q];
    cbn [List.find check_update filter_check PyStr.lower PyStr.map
         PyStr.lower_ascii].
  - serves_message m.
  - serves_message m.
  - serves_message m.
  - serves_message m.
  - cbn. intros [= <-]. cbn. eauto.
Qed.

Lemma registered_commands_list :
  registered_commands = ["start"; "help"; "menu"; "getmyid"; "toggleforward"; "getstats"].
Proof. reflexivity. Qed.

(** X15: an update whose effective message starts with a command that,
    lower-cased, is none of those registered in [main] (and carries no
    photo or document) is dropped in silence, whatever its text and the
    keyword table: no handler runs, nothing is called or logged, the
    globals stay. *)
Theorem unknown_command_dropped `{PyLib} (cfg : Config) (update : Update)
    (m : Message) (cmd : string) (w : Oracle) (n : nat) (g : Globals) :
  effective_message update = Some m ->
  command m = Some cmd ->
  PyStr.lower cmd ∉ registered_commands ->
  photo m = [] ->
  document m = None ->
  dispatch update = None /\
  run (process_update cfg update) w n g = stop (inr tt) g.
Proof.
  intros Hm Hcmd Hunknown Hphoto Hdoc.
  assert (Hd : dispatch update = None).
  { rewrite registered_commands_list in Hunknown.
    unfold dispatch, main_handlers.
    destruct update as [m'|m'|m'|m'|q]; try discriminate;
      injection Hm as ->;
      cbn [List.find check_update filter_check]; rewrite Hcmd, Hphoto, Hdoc;
      cbn [fmap option_fmap option_map];
      repeat (rewrite (bool_decide_eq_false_2 (Some (PyStr.lower cmd) = Some _));
              [|intros [= Heq]; apply Hunknown; rewrite Heq; vm_compute; set_solver]);
      cbn; rewrite andb_false_r; reflexivity. }
  split; [exact Hd|]. unfold process_update. now rewrite Hd.
Qed.

(** ** Updates without [update.message] *)

(** X28: an edited message, a channel post or a message of a business
    account that is handed to a callback makes it fail at once: every
    handler function reaches for [update.message], which is [None], and
    ends with [AttributeError] before any call, log line or assignment, so
    nothing is replied, stored, counted or copied.  The one exception is
    [toggleforward] for a sender who passes [is_admin] (see X29). *)
Theorem update_without_message_fails `{PyLib} (cfg : Config) (f : Fn.name)
    (update : Update) (m : Message) (w : Oracle) (n : nat) (g : Globals) :
  effective_message update = Some m ->
  update <> MessageUpdate m ->
  ~ (f = Fn.toggleforward /\ by_admin cfg update) ->
  run (body cfg f update) w n g = stop (inl AttributeError) g.
Proof.
  intros Hm Hedited Hnot.
  assert (Hgate : forall func,
            (forall user, effective_user update = Some user ->
               is_admin (OWNER_ID cfg) (user_id user) = true ->
               run (func update) w n g = stop (inl AttributeError) g) ->
            the_message update = Raise AttributeError ->
            run (admin_only cfg func update) w n g = stop (inl AttributeError) g).
  { intros func Hfunc Hnone. unfold admin_only, the_effective_user.
    destruct (effective_user update) as [user|] eqn:Huser; coro_cbn;
      [|reflexivity].
    destruct (is_admin (OWNER_ID cfg) (user_id user)) eqn:Hadmin; cbn [negb].
    - now apply (Hfunc user).
    - rewrite Hnone. reflexivity. }
  destruct update as [m'|m'|m'|m'|q]; try discriminate;
    injection Hm as ->; try congruence;
    (destruct f; cbn [body];
     [ reflexivity | reflexivity | reflexivity
     | apply Hgate; [|reflexivity]; intros user Huser Hadmin; exfalso;
       apply Hnot; split; [reflexivity|now exists user]
     | apply Hgate; [|reflexivity]; intros; reflexivity
     | reflexivity | reflexivity | reflexivity | reflexivity | reflexivity
     | reflexivity ]).
Qed.

(** X29: an edited [/toggleforward] of the owner is a toggle without an
    answer: the library hands edited messages to command callbacks too,
    the gate reads the sender from the edited message and passes, the
    flag is negated, and the reply then fails on [update.message], so
    that under [main] the flag has changed and the only trace is the line
    in the error log. *)
Theorem edited_toggle_flips_silently `{PyLib} (cfg : Config) (m : Message)
    (cmd : string) (w : Oracle) (n : nat) (g : Globals) :
  command m = Some cmd ->
  PyStr.lower cmd = "toggleforward" ->
  is_admin (OWNER_ID cfg) (user_id (from_user m)) = true ->
  dispatch (EditedMessageUpdate m) = Some Fn.toggleforward /\
  run (process_update cfg (EditedMessageUpdate m)) w n g =
    {| outcome := inr tt;
       globals_after := set_AUTO_FORWARD (negb (AUTO_FORWARD g)) g;
       trace := [Logged ERROR "Bot error:"] |}.
Proof.
  intros Hcmd Hlower Hadmin.
  assert (Hd : dispatch (EditedMessageUpdate m) = Some Fn.toggleforward).
  { unfold dispatch, main_handlers. cbn [List.find check_update].
    rewrite Hcmd. cbn [fmap option_fmap option_map]. rewrite Hlower.
    reflexivity. }
  split; [exact Hd|].
  unfold process_update. rewrite Hd. cbn [body].
  unfold error_handler, logger_exception.
  rewrite (run_catch_log (toggleforward cfg (EditedMessageUpdate m)) ERROR
             "Bot error:" tt w n g).
  unfold toggleforward, admin_only. coro_cbn. rewrite Hadmin. cbn [negb].
  unfold toggleforward_body. run_cbn. reflexivity.
Qed.

(** ** The menu buttons *)

(** X16: [handle_buttons] answers every callback query first; it edits the
    message only for the tags [about] and [contact] and only after the
    answer went through; for any other tag the answer is all it does.  It
    sends no reply and leaves the globals alone. *)
Theorem handle_buttons_answers_first `{PyLib} (q : CallbackQuery) (w : Oracle)
    (n : nat) (g : Globals) :
  let r := run (handle_buttons (CallbackUpdate q)) w n g in
  calls (trace r) !! 0%nat = Some answer /\
  globals_after r = g /\
  (forall c, c ∈ calls (trace r) -> c <> answer ->
     exists u, api w n answer = inr u /\
     ((data q = Some "about" /\
       c = edit_message_text
             ("🤖 Telegram Automation Bot" +:+ PyStr.nl +:+ "Developed by Efren")) \/
      (data q = Some "contact" /\
       c = edit_message_text "📞 Contact: @your_username"))).
Proof.
  intros r. subst r. unfold handle_buttons. run_cbn.
  destruct (api w n answer) as [e|u] eqn:Hanswer; run_cbn.
  { split; [reflexivity|]. split; [reflexivity|].
    intros c Hin Hne. cbn in Hin. apply list_elem_of_singleton in Hin. congruence. }
  repeat case_bool_decide; run_cbn;
    try (destruct (api w (S n) _) as [e|u']);
    (split; [reflexivity|]); (split; [reflexivity|]);
    intros c Hin Hne; cbn in Hin;
    repeat (apply elem_of_cons in Hin as [Hin|Hin]; [try congruence|]);
    try (apply elem_of_nil in Hin; contradiction);
    exists u; split; try reflexivity; subst c; auto.
Qed.

(** ** Edges of the keyword table *)

(** X17: when the first entry whose pattern matches has an empty reply
    list, [keyword_reply] ends with [IndexError] from [random.choice]: no
    reply is sent, and the entries after it are not tried. *)
Theorem keyword_empty_replies `{PyLib} (cfg : Config) (m : Message)
    (pre post : list (string * list string)) (pattern : string)
    (w : Oracle) (n : nat) (g : Globals) :
  KEYWORDS cfg = pre ++ (pattern, []) :: post ->
  (forall p rs, (p, rs) ∈ pre ->
     regex_search p (str_lower (default "" (text m))) = Some false) ->
  regex_search pattern (str_lower (default "" (text m))) = Some true ->
  let r := run (keyword_reply cfg (MessageUpdate m)) w n g in
  outcome r = inl IndexError /\ calls (trace r) = [] /\ globals_after r = g /\
  searches (trace r) =
    (fun e => (e.1, str_lower (default "" (text m)))) <$> (pre ++ [(pattern, [])]).
Proof.
  intros Htable Hpre Hhit r. subst r.
  unfold keyword_reply. coro_cbn. rewrite Htable.
  rewrite keyword_scan_skip by exact Hpre.
  rewrite keyword_scan_hit by exact Hhit.
  cbn [emit_all emit outcome globals_after trace reply_with random_choice].
  coro_cbn. cbn [run stop outcome globals_after trace].
  split; [reflexivity|].
  split; [rewrite calls_app, calls_searched; reflexivity|].
  split; [reflexivity|].
  now rewrite searches_app, searches_searched, fmap_app.
Qed.

(** X18: a pattern that does not compile stops the scan: when the entries
    before it do not match, [keyword_reply] ends with [re.error] at that
    entry, no reply is sent, and the entries after it are not searched,
    whether they would match or not. *)
Theorem keyword_invalid_pattern `{PyLib} (cfg : Config) (m : Message)
    (pre post : list (string * list string)) (pattern : string)
    (replies : list string) (w : Oracle) (n : nat) (g : Globals) :
  KEYWORDS cfg = pre ++ (pattern, replies) :: post ->
  (forall p rs, (p, rs) ∈ pre ->
     regex_search p (str_lower (default "" (text m))) = Some false) ->
  regex_search pattern (str_lower (default "" (text m))) = None ->
  let r := run (keyword_reply cfg (MessageUpdate m)) w n g in
  outcome r = inl (ReError pattern) /\ calls (trace r) = [] /\
  globals_after r = g /\
  searches (trace r) =
    (fun e => (e.1, str_lower (default "" (text m)))) <$> (pre ++ [(pattern, replies)]).
Proof.
  intros Htable Hpre Hbad r. subst r.
  unfold keyword_reply. coro_cbn. rewrite Htable.
  rewrite keyword_scan_skip by exact Hpre.
  cbn [keyword_scan]. coro_cbn. cbn [run]. rewrite Hbad. coro_cbn.
  cbn [run emit_all emit stop outcome globals_after trace].
  split; [reflexivity|].
  split; [rewrite calls_app, calls_searched; reflexivity|].
  split; [reflexivity|].
  now rewrite searches_app, searches_searched, fmap_app.
Qed.

(** ** The toggle *)

(** X19: for the owner, [toggleforward] flips the flag and then announces
    the new value: the one call is the reply with ON when the flag has
    become true and OFF when it has become false; the flag stays flipped
    also when that reply fails, and the counters are untouched. *)
Theorem toggleforward_announces_new_state `{PyLib} (cfg : Config) (m : Message)
    (w : Oracle) (n : nat) (g : Globals) :
  is_admin (OWNER_ID cfg) (user_id (from_user m)) = true ->
  let r := run (toggleforward cfg (MessageUpdate m)) w n g in
  calls (trace r) =
    [reply_text (chat_id m)
       ("Auto-forward " +:+ (if negb (AUTO_FORWARD g) then "✅ ON" else "❌ OFF"))
       None None] /\
  AUTO_FORWARD (globals_after r) = negb (AUTO_FORWARD g) /\
  BOT_STATS (globals_after r) = BOT_STATS g.
Proof.
  intros Hadmin r. subst r.
  unfold toggleforward, admin_only. coro_cbn. rewrite Hadmin.
  cbn [negb]. unfold toggleforward_body. run_cbn.
  cbn [set_AUTO_FORWARD AUTO_FORWARD].
  now destruct (api w n _).
Qed.

(** ** Documents at the size test *)

(** Closes a goal whose hypothesis puts a call into a list of calls of
    other shapes. *)
Ltac not_in_list Hin :=
  exfalso;
  repeat (apply elem_of_cons in Hin as [Hin|Hin]; [discriminate|]);
  apply elem_of_nil in Hin; contradiction.

(** X20: a document that declares no size is neither stored nor turned
    away: [handle_document] ends with [TypeError] at the comparison, before
    any call, and under [process_update] all that remains is the line in
    the error log. *)
Theorem document_without_size `{PyLib} (cfg : Config) (m : Message)
    (doc : Document) (w : Oracle) (n : nat) (g : Globals) :
  document m = Some doc ->
  doc_file_size doc = None ->
  dispatch (MessageUpdate m) = Some Fn.handle_document ->
  run (handle_document cfg (MessageUpdate m)) w n g = stop (inl TypeError) g /\
  run (process_update cfg (MessageUpdate m)) w n g =
    {| outcome := inr tt; globals_after := g;
       trace := [Logged ERROR "Bot error:"] |}.
Proof.
  intros Hdoc Hsize Hd.
  assert (Hrun : run (handle_document cfg (MessageUpdate m)) w n g =
                 stop (inl TypeError) g).
  { unfold handle_document. run_cbn. rewrite Hdoc. run_cbn. now rewrite Hsize. }
  split; [exact Hrun|].
  unfold process_update. rewrite Hd. cbn [body].
  unfold error_handler, logger_exception.
  rewrite (run_catch_log (handle_document cfg (MessageUpdate m)) ERROR "Bot error:"
             tt w n g).
  now rewrite Hrun.
Qed.

(** The interpreter, one operation at a time. *)

(** The calls of a trace laid bare. *)
Ltac calls_cbn := cbn [calls trace emit stop omap list_omap].

Lemma run_await `{PyLib} {A} (c : call) (k : exn + resp c -> coro A) w n g :
  run (Await c k) w n g = emit (Called c) (run (k (api w n c)) w (S n) g).
Proof. reflexivity. Qed.

Lemma run_read_stat `{PyLib} {A} key (k : option Z -> coro A) w n g :
  run (ReadStat key k) w n g = run (k (BOT_STATS g !! key)) w n g.
Proof. reflexivity. Qed.

Lemma run_write_stat `{PyLib} {A} key v (k : coro A) w n g :
  run (WriteStat key v k) w n g = run k w n (set_BOT_STATS key v g).
Proof. reflexivity. Qed.

Lemma run_log `{PyLib} {A} lvl msg (k : coro A) w n g :
  run (Log lvl msg k) w n g = emit (Logged lvl msg) (run k w n g).
Proof. reflexivity. Qed.

Lemma run_ret `{PyLib} {A} (a : A) w n g : run (Ret a) w n g = stop (inr a) g.
Proof. reflexivity. Qed.

Lemma run_raise `{PyLib} {A} (e : exn) w n g :
  run (Raise e : coro A) w n g = stop (inl e) g.
Proof. reflexivity. Qed.

(** One step of a run at a time, by rewriting. *)
Ltac run_step :=
  coro_cbn;
  repeat first [ rewrite run_await | rewrite run_read_stat | rewrite run_write_stat
               | rewrite run_log | rewrite run_ret | rewrite run_raise
               | progress
                   match goal with
                   | |- context [@run ?H ?A (await ?c) ?w ?n ?g] =>
                       change (@run H A (await c) w n g)
                         with (emit (Called c)
                                 (@run H A
                                    match api w n c with
                                    | inl e => Raise e
                                    | inr v => Ret v
                                    end w (S n) g))
                   end ].

(** X21: the size test is strict: a document is fetched exactly when its
    declared size is at most [MAX_FILE_SIZE], 20 MiB included, and gets the
    too-large reply exactly when it is above. *)
Theorem document_fetched_iff_within_limit `{PyLib} (cfg : Config) (m : Message)
    (doc : Document) (size : Z) (w : Oracle) (n : nat) (g : Globals) :
  document m = Some doc ->
  doc_file_size doc = Some size ->
  let cs := calls (trace (run (handle_document cfg (MessageUpdate m)) w n g)) in
  (get_file (doc_file_id doc) ∈ cs <-> size <= MAX_FILE_SIZE) /\
  (reply_text (chat_id m) "⚠️ File too large." None None ∈ cs <->
   size > MAX_FILE_SIZE).
Proof.
  intros Hdoc Hsize cs. subst cs.
  unfold handle_document. coro_cbn. rewrite Hdoc. coro_cbn. rewrite Hsize. coro_cbn.
  destruct (size >? MAX_FILE_SIZE) eqn:Hcmp.
  - assert (size > MAX_FILE_SIZE) by (apply Z.gtb_lt in Hcmp; lia).
    run_step. destruct (api w n _); run_step; calls_cbn;
      (split; split;
       [ intros Hin; not_in_list Hin | lia
       | intros _; assumption | intros _; apply list_elem_of_here ]).
  - assert (Hfit : size <= MAX_FILE_SIZE)
      by (rewrite Z.gtb_ltb in Hcmp; now apply Z.ltb_ge).
    set (filename := sanitize_filename _).
    set (caption := "📄 File from " +:+ _).
    set (line := "Document received from " +:+ _).
    assert (Hlater : forall (r : Result unit),
              reply_text (chat_id m) "⚠️ File too large." None None ∉ calls (trace r) ->
              (get_file (doc_file_id doc)
                 ∈ calls (trace (emit (Called (get_file (doc_file_id doc))) r)) <->
               size <= MAX_FILE_SIZE) /\
              (reply_text (chat_id m) "⚠️ File too large." None None
                 ∈ calls (trace (emit (Called (get_file (doc_file_id doc))) r)) <->
               size > MAX_FILE_SIZE)).
    { intros r Hnot. calls_cbn. split; split.
      - intros _. exact Hfit.
      - intros _. apply list_elem_of_here.
      - intros Hin. apply elem_of_cons in Hin as [Hin|Hin]; [discriminate|].
        contradiction.
      - lia. }
    rewrite run_await. apply Hlater. clear Hlater.
    destruct (api w n (get_file (doc_file_id doc))) as [e|file]; run_step.
    { calls_cbn. apply not_elem_of_nil. }
    destruct (api w (S n) (download_to_drive file FILES_DIR filename)) as [e|u];
      run_step.
    { calls_cbn. intros Hin. not_in_list Hin. }
    destruct (BOT_STATS g !! "documents") as [v|]; run_step.
    2: { calls_cbn. intros Hin. not_in_list Hin. }
    rewrite run_forward_if_enabled.
    destruct (forward_target cfg _) as [owner|]; run_step;
      repeat match goal with
             | |- context [api w ?i ?c] => destruct (api w i c) as [?|?]; run_step
             end;
      calls_cbn; intros Hin; not_in_list Hin.
Qed.

(** ** The flag during an upload *)

Ltac pool_cbn :=
  cbn [advance resume awaited fst snd mbind mret mthrow coro_mbind coro_ret
       coro_throw coro_bind the_message from_option await read_AUTO_FORWARD
       write_AUTO_FORWARD read_BOT_STATS write_BOT_STATS logger_info
       logger_exception re_search].

(** X22: [handle_photo] tests the flag when the download has come back,
    not when the upload began: for a task that was started under any
    globals [g1] and is resumed with the finished download under any
    globals [g2], the next call it waits for is the copy to the owner
    exactly when [OWNER_ID and AUTO_FORWARD] holds in [g2], and the reply
    to the sender otherwise; by then it has raised the photo counter of
    [g2] by one. *)
Theorem forward_flag_read_after_download `{PyLib} (cfg : Config) (m : Message)
    (ps : PhotoSize) (file : File) (t1 t2 : Turn) (g1 g2 : Globals) (v : Z) :
  last (photo m) = Some ps ->
  answers t1 (get_file (photo_file_id ps)) = inr file ->
  let filename :=
    sanitize_filename
      ("photo_" +:+ pretty (user_id (from_user m)) +:+ "_" +:+
       file_id file +:+ ".jpg") in
  (exists u, answers t2 (download_to_drive file PHOTOS_DIR filename) = inr u) ->
  BOT_STATS g2 !! "photos" = Some v ->
  let started := advance (resume (handle_photo cfg (MessageUpdate m)) t1) (draws t1) 0 g1 in
  let resumed := advance (resume started.1 t2) (draws t2) 0 g2 in
  started.2 = g1 /\
  awaited started.1 = Some (download_to_drive file PHOTOS_DIR filename) /\
  awaited resumed.1 =
    Some match forward_target cfg g2 with
         | Some owner =>
             send_photo owner (photo_file_id ps)
               ("📸 Photo from " +:+ pretty (user_id (from_user m)))
         | None =>
             reply_text (chat_id m) ("📸 Saved as `" +:+ filename +:+ "`")
               (Some "Markdown") None
         end /\
  resumed.2 = set_BOT_STATS "photos" (v + 1) g2.
Proof.
  intros Hlast Hfile filename [u Hdown] Hv started resumed.
  subst started resumed filename.
  unfold handle_photo, forward_if_enabled, forward_target.
  pool_cbn. rewrite Hlast. pool_cbn. rewrite Hfile. pool_cbn.
  split; [reflexivity|]. split; [reflexivity|].
  rewrite Hdown. pool_cbn. rewrite Hv. pool_cbn.
  destruct (OWNER_ID cfg) as [owner|]; [|now pool_cbn].
  destruct (negb (owner =? 0)); [|now pool_cbn].
  pool_cbn. cbn [set_BOT_STATS AUTO_FORWARD andb].
  now destruct (AUTO_FORWARD g2); pool_cbn.
Qed.

(** ** The counters over the life of the process *)

Lemma process_update_globals `{PyLib} (cfg : Config) (update : Update) w n g :
  globals_after (run (process_update cfg update) w n g) =
  match dispatch update with
  | Some f => globals_after (run (body cfg f update) w n g)
  | None => g
  end.
Proof.
  unfold process_update. destruct (dispatch update) as [f|]; [|reflexivity].
  unfold error_handler, logger_exception.
  now rewrite (run_catch_log (body cfg f update) ERROR "Bot error:" tt w n g).
Qed.

Lemma process_update_counters `{PyLib} (cfg : Config) (update : Update) w n g p d :
  BOT_STATS g !! "photos" = Some p ->
  BOT_STATS g !! "documents" = Some d ->
  exists p1 d1,
    BOT_STATS (globals_after (run (process_update cfg update) w n g)) !! "photos"
      = Some p1 /\
    BOT_STATS (globals_after (run (process_update cfg update) w n g)) !! "documents"
      = Some d1 /\
    ((p1 = p /\ d1 = d) \/ (p1 = p + 1 /\ d1 = d) \/ (p1 = p /\ d1 = d + 1)).
Proof.
  intros Hp Hd. rewrite process_update_globals.
  destruct (dispatch update) as [f|]; [|exists p, d; auto].
  destruct (decide (f = Fn.handle_photo)) as [->|Hnp].
  { cbn [body].
    rewrite (run_quiet "documents") by (apply handle_photo_quiet; discriminate).
    destruct (run_pending "photos" p (handle_photo cfg update) w n g
                (handle_photo_pending cfg update) Hp) as [Hp1|Hp1];
      rewrite Hp1; eauto 10. }
  destruct (decide (f = Fn.handle_document)) as [->|Hnd].
  { cbn [body].
    rewrite (run_quiet "photos") by (apply handle_document_quiet; discriminate).
    destruct (handle_document_pending_or_quiet cfg update) as [Hpend|Hquiet].
    - destruct (run_pending "documents" d _ w n g Hpend Hd) as [Hd1|Hd1];
        rewrite Hd1; eauto 10.
    - rewrite (run_quiet "documents") by assumption. eauto 10. }
  rewrite !run_quiet by (apply body_quiet; congruence). eauto 10.
Qed.

(** X23: over the life of the process the two counters are always there
    and never negative: after [main] has handled any series of updates,
    starting from the module's initial globals, [BOT_STATS] holds a photo
    count and a document count, both at least 0, that together do not
    exceed the number of updates handled.  So [BOT_STATS[...]] never raises
    [KeyError]. *)
Theorem counters_invariant `{PyLib} (cfg : Config) (events : list (Update * Oracle))
    (auto_forward : bool) :
  exists p d,
    BOT_STATS (after_updates cfg events (initial_globals auto_forward)) !! "photos"
      = Some p /\
    BOT_STATS (after_updates cfg events (initial_globals auto_forward)) !! "documents"
      = Some d /\
    0 <= p /\ 0 <= d /\ p + d <= Z.of_nat (length events).
Proof.
  assert (Hgen : forall events g p0 d0,
            BOT_STATS g !! "photos" = Some p0 ->
            BOT_STATS g !! "documents" = Some d0 ->
            exists p d,
              BOT_STATS (after_updates cfg events g) !! "photos" = Some p /\
              BOT_STATS (after_updates cfg events g) !! "documents" = Some d /\
              p0 <= p /\ d0 <= d /\
              (p - p0) + (d - d0) <= Z.of_nat (length events)).
  { clear events. induction events as [|[update w] events IH]; intros g p0 d0 Hp Hd.
    - exists p0, d0. cbn. repeat split; auto; lia.
    - cbn [after_updates length].
      destruct (process_update_counters cfg update w 0%nat g p0 d0 Hp Hd)
        as (p1 & d1 & Hp1 & Hd1 & Hstep).
      destruct (IH _ p1 d1 Hp1 Hd1) as (p & d & Hp' & Hd' & Hle1 & Hle2 & Hsum).
      exists p, d. repeat split; auto; lia. }
  destruct (Hgen events (initial_globals auto_forward) 0 0) as
    (p & d & Hp & Hd & Hp0 & Hd0 & Hsum); [reflexivity..|].
  exists p, d. repeat split; auto; lia.
Qed.

(** ** The owner's view *)

(** X24: for the owner, [getstats] replies with the two counters as they
    are at that moment, the photo count after [Photos:] and the document
    count after [Files:], and changes nothing. *)
Theorem getstats_reports_counters `{PyLib} (cfg : Config) (m : Message)
    (p d : Z) (w : Oracle) (n : nat) (g : Globals) :
  is_admin (OWNER_ID cfg) (user_id (from_user m)) = true ->
  BOT_STATS g !! "photos" = Some p ->
  BOT_STATS g !! "documents" = Some d ->
  let r := run (getstats cfg (MessageUpdate m)) w n g in
  calls (trace r) =
    [reply_text (chat_id m)
       ("📊 Stats" +:+ PyStr.nl +:+ "Photos: " +:+ pretty p +:+ PyStr.nl +:+
        "Files: " +:+ pretty d) None None] /\
  globals_after r = g.
Proof.
  intros Hadmin Hp Hd r. subst r.
  unfold getstats, admin_only. coro_cbn. rewrite Hadmin.
  cbn [negb]. unfold getstats_body. run_cbn. rewrite Hp. run_cbn. rewrite Hd.
  run_cbn. now destruct (api w n _).
Qed.

(** ** An upload from end to end *)

(** X25: when no call fails, [handle_document] on a document within the
    size limit goes through its steps in this order and returns: fetch
    ([get_file], then the download to the files directory), count, log,
    the copy to the owner if [OWNER_ID and AUTO_FORWARD] holds, and last
    the reply naming the stored file.  Only the document counter has
    changed, by one. *)
Theorem handle_document_end_to_end `{PyLib} (cfg : Config) (m : Message)
    (doc : Document) (size v : Z) (w : Oracle) (n : nat) (g : Globals) :
  document m = Some doc ->
  doc_file_size doc = Some size ->
  size <= MAX_FILE_SIZE ->
  never_fails w ->
  BOT_STATS g !! "documents" = Some v ->
  let filename :=
    sanitize_filename
      (pretty (user_id (from_user m)) +:+ "_" +:+ fmt_opt (doc_file_name doc)) in
  let r := run (handle_document cfg (MessageUpdate m)) w n g in
  outcome r = inr tt /\
  globals_after r = set_BOT_STATS "documents" (v + 1) g /\
  exists file,
    api w n (get_file (doc_file_id doc)) = inr file /\
    trace r =
      [ Called (get_file (doc_file_id doc));
        Called (download_to_drive file FILES_DIR filename);
        Logged INFO
          ("Document received from " +:+ fmt_opt (username (from_user m)) +:+
           " (" +:+ pretty (user_id (from_user m)) +:+ "): " +:+ filename) ] ++
      match forward_target cfg g with
      | Some owner =>
          [Called (send_document owner (doc_file_id doc)
                     ("📄 File from " +:+ pretty (user_id (from_user m))))]
      | None => []
      end ++
      [ Called (reply_text (chat_id m) ("📄 Saved `" +:+ filename +:+ "`")
                  (Some "Markdown") None) ].
Proof.
  intros Hdoc Hsize Hfit Hw Hv filename r. subst r.
  destruct (Hw n (get_file (doc_file_id doc))) as [file Hfile].
  destruct (Hw (S n) (download_to_drive file FILES_DIR filename)) as [u Hdown].
  unfold handle_document. coro_cbn. rewrite Hdoc. coro_cbn. rewrite Hsize.
  coro_cbn.
  assert ((size >? MAX_FILE_SIZE) = false) as ->
    by (rewrite Z.gtb_ltb; apply Z.ltb_ge; lia).
  coro_cbn. cbn [run]. rewrite Hfile. coro_cbn. cbn [run].
  fold filename. rewrite Hdown. coro_cbn. cbn [run]. rewrite Hv. coro_cbn. cbn [run].
  match goal with
  | |- context [run ?c w (S (S n)) ?g1] =>
      change c with
        (forward_if_enabled cfg
           (fun owner => send_document owner (doc_file_id doc)
                           ("📄 File from " +:+ pretty (user_id (from_user m))));;
         await (reply_text (chat_id m) ("📄 Saved `" +:+ filename +:+ "`")
                  (Some "Markdown") None))
  end.
  rewrite run_forward_if_enabled.
  change (forward_target cfg (set_BOT_STATS "documents" (v + 1) g))
    with (forward_target cfg g).
  destruct (forward_target cfg g) as [owner|].
  - destruct (Hw (S (S n)) (send_document owner (doc_file_id doc)
                              ("📄 File from " +:+ pretty (user_id (from_user m)))))
      as [u1 Hsend].
    rewrite Hsend. run_cbn.
    match goal with
    | |- context [api w ?i ?c] => destruct (Hw i c) as [u2 Hreply]; rewrite Hreply
    end.
    run_cbn. cbn [emit stop outcome globals_after trace]. destruct u2.
    split; [reflexivity|]. split; [reflexivity|]. exists file. split; reflexivity.
  - run_cbn.
    match goal with
    | |- context [api w ?i ?c] => destruct (Hw i c) as [u2 Hreply]; rewrite Hreply
    end.
    run_cbn. cbn [emit stop outcome globals_after trace]. destruct u2.
    split; [reflexivity|]. split; [reflexivity|]. exists file. split; reflexivity.
Qed.

(** X26: when no call fails, [handle_photo] goes through its steps in this
    order and returns: fetch of the last photo size ([get_file], then the
    download to the photos directory), count, log, the copy to the owner
    if [OWNER_ID and AUTO_FORWARD] holds, and last the reply naming the
    stored file.  Only the photo counter has changed, by one. *)
Theorem handle_photo_end_to_end `{PyLib} (cfg : Config) (m : Message)
    (ps : PhotoSize) (v : Z) (w : Oracle) (n : nat) (g : Globals) :
  last (photo m) = Some ps ->
  never_fails w ->
  BOT_STATS g !! "photos" = Some v ->
  let r := run (handle_photo cfg (MessageUpdate m)) w n g in
  outcome r = inr tt /\
  globals_after r = set_BOT_STATS "photos" (v + 1) g /\
  exists file,
    api w n (get_file (photo_file_id ps)) = inr file /\
    let filename :=
      sanitize_filename
        ("photo_" +:+ pretty (user_id (from_user m)) +:+ "_" +:+
         file_id file +:+ ".jpg") in
    trace r =
      [ Called (get_file (photo_file_id ps));
        Called (download_to_drive file PHOTOS_DIR filename);
        Logged INFO
          ("Photo received from " +:+ fmt_opt (username (from_user m)) +:+
           " (" +:+ pretty (user_id (from_user m)) +:+ "): " +:+ filename) ] ++
      match forward_target cfg g with
      | Some owner =>
          [Called (send_photo owner (photo_file_id ps)
                     ("📸 Photo from " +:+ pretty (user_id (from_user m))))]
      | None => []
      end ++
      [ Called (reply_text (chat_id m) ("📸 Saved as `" +:+ filename +:+ "`")
                  (Some "Markdown") None) ].
Proof.
  intros Hlast Hw Hv r. subst r.
  destruct (Hw n (get_file (photo_file_id ps))) as [file Hfile].
  set (filename := sanitize_filename
                     ("photo_" +:+ pretty (user_id (from_user m)) +:+ "_" +:+
                      file_id file +:+ ".jpg")).
  destruct (Hw (S n) (download_to_drive file PHOTOS_DIR filename)) as [u Hdown].
  unfold handle_photo. coro_cbn. rewrite Hlast. coro_cbn. cbn [run].
  rewrite Hfile. coro_cbn. cbn [run].
  fold filename. rewrite Hdown. coro_cbn. cbn [run]. rewrite Hv. coro_cbn. cbn [run].
  match goal with
  | |- context [run ?c w (S (S n)) ?g1] =>
      change c with
        (forward_if_enabled cfg
           (fun owner => send_photo owner (photo_file_id ps)
                           ("📸 Photo from " +:+ pretty (user_id (from_user m))));;
         await (reply_text (chat_id m) ("📸 Saved as `" +:+ filename +:+ "`")
                  (Some "Markdown") None))
  end.
  rewrite run_forward_if_enabled.
  change (forward_target cfg (set_BOT_STATS "photos" (v + 1) g))
    with (forward_target cfg g).
  destruct (forward_target cfg g) as [owner|].
  - destruct (Hw (S (S n)) (send_photo owner (photo_file_id ps)
                              ("📸 Photo from " +:+ pretty (user_id (from_user m)))))
      as [u1 Hsend].
    rewrite Hsend. run_cbn.
    match goal with
    | |- context [api w ?i ?c] => destruct (Hw i c) as [u2 Hreply]; rewrite Hreply
    end.
    run_cbn. cbn [emit stop outcome globals_after trace]. destruct u2.
    split; [reflexivity|]. split; [reflexivity|]. exists file. split; reflexivity.
  - run_cbn.
    match goal with
    | |- context [api w ?i ?c] => destruct (Hw i c) as [u2 Hreply]; rewrite Hreply
    end.
    run_cbn. cbn [emit stop outcome globals_after trace]. destruct u2.
    split; [reflexivity|]. split; [reflexivity|]. exists file. split; reflexivity.
Qed.

(** ** The menu and its buttons *)

(** X27: every button of the keyboard that [menu] sends is served: a
    callback query that carries the button's tag goes to [handle_buttons],
    which, once the query is answered, edits the message. *)
Theorem menu_buttons_handled `{PyLib} (m : Message) (w : Oracle) (n : nat)
    (g : Globals) (chat : Z) (title : string) (mode : option string)
    (kb : keyboard) (label tag : string) (q : CallbackQuery) (w' : Oracle)
    (n' : nat) (g' : Globals) :
  reply_text chat title mode (Some kb) ∈
    calls (trace (run (menu (MessageUpdate m)) w n g)) ->
  (label, tag) ∈ concat kb ->
  data q = Some tag ->
  (exists u, api w' n' answer = inr u) ->
  dispatch (CallbackUpdate q) = Some Fn.handle_buttons /\
  exists edited,
    calls (trace (run (handle_buttons (CallbackUpdate q)) w' n' g')) =
      [answer; edit_message_text edited].
Proof.
  intros Hsent Hbutton Hdata [u Hanswer]. split; [reflexivity|].
  assert (Hkb : kb = [[("ℹ About", "about")]; [("📞 Contact", "contact")]]).
  { unfold menu in Hsent. revert Hsent. run_cbn.
    destruct (api w n _) as [e|u']; run_cbn; cbn; intros Hin;
      apply list_elem_of_singleton in Hin; now injection Hin. }
  subst kb. cbn in Hbutton.
  unfold handle_buttons. run_cbn. rewrite Hanswer. run_cbn. rewrite Hdata.
  apply elem_of_cons in Hbutton as [Hbutton|Hbutton].
  - injection Hbutton as -> ->.
    rewrite bool_decide_eq_true_2 by reflexivity. run_cbn.
    destruct (api w' (S n') _) as [e|u']; run_cbn; eauto.
  - apply list_elem_of_singleton in Hbutton. injection Hbutton as -> ->.
    rewrite bool_decide_eq_false_2 by discriminate.
    rewrite bool_decide_eq_true_2 by reflexivity. run_cbn.
    destruct (api w' (S n') _) as [e|u']; run_cbn; eauto.
Qed.

(** * Further scenarios

    The properties above at concrete inputs, with [literal_lib] for the
    library. *)

Section FurtherScenarios.

#[local] Existing Instance literal_lib.

Lemma getmyid_configures_owner_witness :
  let m := command_message sender7 "getmyid" in
  calls (trace (run (getmyid (MessageUpdate m)) (calm 0) 0 (initial_globals true))) =
    [reply_text 7 "🆔 Your ID: `7`" (Some "Markdown") None] /\
  load_OWNER_ID (Some "7") = Some 7 /\
  is_admin (load_OWNER_ID (Some "7")) 7 = true.
Proof.
  apply (getmyid_configures_owner (command_message sender7 "getmyid") (calm 0)
           0%nat (initial_globals true)).
  simpl. lia.
Defined.

Lemma only_digit_owner_is_admin_witness :
  0 <= 42 /\
  exists s, Some "42" = Some s /\ s <> "" /\ PyStr.all is_digit s = true.
Proof.
  apply (only_digit_owner_is_admin (Some "42") 42).
  - intros s [= <-]. reflexivity.
  - reflexivity.
Defined.

Lemma handle_photo_file_name_witness :
  let cs := calls (trace (run (handle_photo scenario_cfg (MessageUpdate photo_message))
                            (calm 0) 0 (initial_globals true))) in
  cs !! 0%nat = Some (get_file "AgAC-large") /\
  cs !! 1%nat =
    Some (download_to_drive {| file_id := "AgAC-large" |} PHOTOS_DIR
            "photo_7_AgAC-large.jpg").
Proof.
  apply (handle_photo_file_name scenario_cfg photo_message
           [ {| photo_file_id := "AgAC-small" |} ] {| photo_file_id := "AgAC-large" |}
           {| file_id := "AgAC-large" |} (calm 0) 0%nat (initial_globals true));
    reflexivity.
Defined.

Lemma handle_document_file_name_witness :
  let cs := calls (trace (run (handle_document scenario_cfg
                                 (MessageUpdate (document_message "../etc/pass wd!" 1024)))
                            (calm 0) 0 (initial_globals true))) in
  cs !! 0%nat = Some (get_file "BQAC") /\
  cs !! 1%nat =
    Some (download_to_drive {| file_id := "BQAC" |} FILES_DIR "7_.._etc_pass wd").
Proof.
  apply (handle_document_file_name scenario_cfg
           (document_message "../etc/pass wd!" 1024)
           {| doc_file_id := "BQAC"; doc_file_name := Some "../etc/pass wd!";
              doc_file_size := Some 1024 |}
           1024 {| file_id := "BQAC" |} (calm 0) 0%nat (initial_globals true));
    [reflexivity | reflexivity | vm_compute; discriminate | reflexivity].
Defined.

Lemma handle_photo_fetch_failure_witness :
  let r := run (handle_photo scenario_cfg (MessageUpdate photo_message))
             (failing_at 0) 0 (initial_globals true) in
  outcome r = inl NetworkError /\ globals_after r = initial_globals true /\
  forallb is_fetch (calls (trace r)) = true.
Proof.
  apply (handle_photo_fetch_failure scenario_cfg photo_message
           {| photo_file_id := "AgAC-large" |} NetworkError (failing_at 0) 0%nat
           (initial_globals true)).
  - reflexivity.
  - left. reflexivity.
Defined.

Lemma handle_document_fetch_failure_witness :
  let r := run (handle_document scenario_cfg
                  (MessageUpdate (document_message "report.pdf" 1024)))
             (failing_at 1) 0 (initial_globals true) in
  outcome r = inl NetworkError /\ globals_after r = initial_globals true /\
  forallb is_fetch (calls (trace r)) = true.
Proof.
  apply (handle_document_fetch_failure scenario_cfg
           (document_message "report.pdf" 1024)
           {| doc_file_id := "BQAC"; doc_file_name := Some "report.pdf";
              doc_file_size := Some 1024 |}
           1024 NetworkError (failing_at 1) 0%nat (initial_globals true)).
  - reflexivity.
  - reflexivity.
  - vm_compute. discriminate.
  - right. exists {| file_id := "BQAC" |}. split; reflexivity.
Defined.

Lemma handle_photo_forward_failure_witness :
  let r := run (handle_photo scenario_cfg (MessageUpdate photo_message))
             (failing_at 2) 0 (initial_globals true) in
  outcome r = inl NetworkError /\
  BOT_STATS (globals_after r) !! "photos" = Some (0 + 1) /\
  existsb is_reply (calls (trace r)) = false.
Proof.
  apply (handle_photo_forward_failure scenario_cfg photo_message
           {| photo_file_id := "AgAC-large" |} {| file_id := "AgAC-large" |}
           0 42 NetworkError (failing_at 2) 0%nat (initial_globals true)).
  - reflexivity.
  - reflexivity.
  - exists tt. reflexivity.
  - reflexivity.
  - reflexivity.
  - reflexivity.
Defined.

Lemma flag_changed_only_by_toggle_witness :
  AUTO_FORWARD
    (globals_after (run (body scenario_cfg Fn.handle_photo (MessageUpdate photo_message))
                      (calm 0) 0 (initial_globals true))) =
  AUTO_FORWARD (initial_globals true).
Proof.
  apply (flag_changed_only_by_toggle scenario_cfg Fn.handle_photo
           (MessageUpdate photo_message) (calm 0) 0%nat (initial_globals true)).
  discriminate.
Defined.

Lemma counter_changed_only_by_its_upload_witness :
  BOT_STATS
    (globals_after (run (body scenario_cfg Fn.handle_photo (MessageUpdate photo_message))
                      (calm 0) 0 (initial_globals true))) !! "documents" =
  BOT_STATS (initial_globals true) !! "documents".
Proof.
  apply (counter_changed_only_by_its_upload scenario_cfg Fn.handle_photo "documents"
           (MessageUpdate photo_message) (calm 0) 0%nat (initial_globals true)).
  - intros _. discriminate.
  - discriminate.
Defined.

Lemma counter_grows_by_at_most_one_witness :
  let g' := globals_after (run (body scenario_cfg Fn.handle_photo
                                  (MessageUpdate photo_message))
                             (calm 0) 0 (initial_globals true)) in
  BOT_STATS g' !! "photos" = Some 0 \/ BOT_STATS g' !! "photos" = Some (0 + 1).
Proof.
  apply (counter_grows_by_at_most_one scenario_cfg Fn.handle_photo "photos" 0
           (MessageUpdate photo_message) (calm 0) 0%nat (initial_globals true)).
  reflexivity.
Defined.

Lemma dispatch_serves_witness :
  serves Fn.start (MessageUpdate (command_message sender7 "START")).
Proof.
  apply (dispatch_serves (MessageUpdate (command_message sender7 "START")) Fn.start).
  reflexivity.
Defined.

Lemma unknown_command_dropped_witness :
  dispatch (EditedMessageUpdate (command_message sender7 "Ping")) = None /\
  run (process_update greeting_cfg
         (EditedMessageUpdate (command_message sender7 "Ping")))
    (calm 0) 0 (initial_globals true) = stop (inr tt) (initial_globals true).
Proof.
  apply (unknown_command_dropped greeting_cfg
           (EditedMessageUpdate (command_message sender7 "Ping"))
           (command_message sender7 "Ping") "Ping" (calm 0) 0%nat
           (initial_globals true)).
  - reflexivity.
  - reflexivity.
  - vm_compute. intros Hin.
    repeat (apply elem_of_cons in Hin as [Hin|Hin]; [discriminate|]).
    apply elem_of_nil in Hin. exact Hin.
  - reflexivity.
  - reflexivity.
Defined.

Lemma keyword_empty_replies_witness :
  let m := text_message "Hello there" in
  let r := run (keyword_reply silent_cfg (MessageUpdate m)) (calm 0) 0
             (initial_globals true) in
  outcome r = inl IndexError /\ calls (trace r) = [] /\
  globals_after r = initial_globals true /\
  searches (trace r) =
    (fun e => (e.1, str_lower (default "" (text m)))) <$>
      ([("bye", ["see you"])] ++ [("hello", [])]).
Proof.
  apply (keyword_empty_replies silent_cfg (text_message "Hello there")
           [("bye", ["see you"])] [("h", ["other"])] "hello"
           (calm 0) 0%nat (initial_globals true)).
  - reflexivity.
  - intros p rs Hin. apply list_elem_of_singleton in Hin. injection Hin as -> ->.
    reflexivity.
  - reflexivity.
Defined.

Lemma toggleforward_announces_new_state_witness :
  let m := command_message owner42 "toggleforward" in
  let r := run (toggleforward scenario_cfg (MessageUpdate m)) (failing_at 0) 0
             (initial_globals true) in
  calls (trace r) = [reply_text 42 "Auto-forward ❌ OFF" None None] /\
  AUTO_FORWARD (globals_after r) = false /\
  BOT_STATS (globals_after r) = BOT_STATS (initial_globals true).
Proof.
  apply (toggleforward_announces_new_state scenario_cfg
           (command_message owner42 "toggleforward") (failing_at 0) 0%nat
           (initial_globals true)).
  reflexivity.
Defined.

Lemma document_without_size_witness :
  run (handle_document scenario_cfg (MessageUpdate sizeless_document_message))
    (calm 0) 0 (initial_globals true) = stop (inl TypeError) (initial_globals true) /\
  run (process_update scenario_cfg (MessageUpdate sizeless_document_message))
    (calm 0) 0 (initial_globals true) =
    {| outcome := inr tt; globals_after := initial_globals true;
       trace := [Logged ERROR "Bot error:"] |}.
Proof.
  apply (document_without_size scenario_cfg sizeless_document_message
           sizeless_document (calm 0) 0%nat (initial_globals true));
    reflexivity.
Defined.

Lemma document_fetched_iff_within_limit_witness :
  let m := document_message "exact.bin" (20 * 1024 * 1024) in
  let cs := calls (trace (run (handle_document scenario_cfg (MessageUpdate m))
                            (calm 0) 0 (initial_globals true))) in
  (get_file "BQAC" ∈ cs <-> 20 * 1024 * 1024 <= MAX_FILE_SIZE) /\
  (reply_text 7 "⚠️ File too large." None None ∈ cs <->
   20 * 1024 * 1024 > MAX_FILE_SIZE).
Proof.
  apply (document_fetched_iff_within_limit scenario_cfg
           (document_message "exact.bin" (20 * 1024 * 1024))
           {| doc_file_id := "BQAC"; doc_file_name := Some "exact.bin";
              doc_file_size := Some (20 * 1024 * 1024) |}
           (20 * 1024 * 1024) (calm 0) 0%nat (initial_globals true));
    reflexivity.
Defined.

Lemma forward_flag_read_after_download_witness :
  let started :=
    advance (resume (handle_photo scenario_cfg (MessageUpdate photo_message))
               (calm_turn 0))
      (draws (calm_turn 0)) 0 (initial_globals true) in
  let resumed :=
    advance (resume started.1 (calm_turn 0)) (draws (calm_turn 0)) 0
      (initial_globals false) in
  started.2 = initial_globals true /\
  awaited started.1 =
    Some (download_to_drive {| file_id := "AgAC-large" |} PHOTOS_DIR
            "photo_7_AgAC-large.jpg") /\
  awaited resumed.1 =
    Some (reply_text 7 "📸 Saved as `photo_7_AgAC-large.jpg`" (Some "Markdown") None) /\
  resumed.2 = set_BOT_STATS "photos" (0 + 1) (initial_globals false).
Proof.
  apply (forward_flag_read_after_download scenario_cfg photo_message
           {| photo_file_id := "AgAC-large" |} {| file_id := "AgAC-large" |}
           (calm_turn 0) (calm_turn 0) (initial_globals true) (initial_globals false) 0).
  - reflexivity.
  - reflexivity.
  - exists tt. reflexivity.
  - reflexivity.
Defined.

Lemma getstats_reports_counters_witness :
  let m := command_message owner42 "getstats" in
  let g := set_BOT_STATS "photos" 3 (initial_globals true) in
  let r := run (getstats scenario_cfg (MessageUpdate m)) (calm 0) 0 g in
  calls (trace r) =
    [reply_text 42
       ("📊 Stats" +:+ PyStr.nl +:+ "Photos: 3" +:+ PyStr.nl +:+ "Files: 0")
       None None] /\
  globals_after r = g.
Proof.
  apply (getstats_reports_counters scenario_cfg
           (command_message owner42 "getstats") 3 0 (calm 0) 0%nat
           (set_BOT_STATS "photos" 3 (initial_globals true)));
    reflexivity.
Defined.

Lemma handle_document_end_to_end_witness :
  let r := run (handle_document scenario_cfg
                  (MessageUpdate (document_message "report.pdf" 1024)))
             (calm 0) 0 (initial_globals true) in
  outcome r = inr tt /\
  globals_after r = set_BOT_STATS "documents" (0 + 1) (initial_globals true) /\
  exists file,
    api (calm 0) 0 (get_file "BQAC") = inr file /\
    trace r =
      [ Called (get_file "BQAC");
        Called (download_to_drive file FILES_DIR "7_report.pdf");
        Logged INFO "Document received from seven (7): 7_report.pdf" ] ++
      [ Called (send_document 42 "BQAC" "📄 File from 7") ] ++
      [ Called (reply_text 7 "📄 Saved `7_report.pdf`" (Some "Markdown") None) ].
Proof.
  apply (handle_document_end_to_end scenario_cfg
           (document_message "report.pdf" 1024)
           {| doc_file_id := "BQAC"; doc_file_name := Some "report.pdf";
              doc_file_size := Some 1024 |}
           1024 0 (calm 0) 0%nat (initial_globals true)).
  - reflexivity.
  - reflexivity.
  - vm_compute. discriminate.
  - intros i c. exists (ok_response c). reflexivity.
  - reflexivity.
Defined.

Lemma handle_photo_end_to_end_witness :
  let r := run (handle_photo ownerless_cfg (MessageUpdate photo_message))
             (calm 0) 0 (initial_globals true) in
  outcome r = inr tt /\
  globals_after r = set_BOT_STATS "photos" (0 + 1) (initial_globals true) /\
  exists file,
    api (calm 0) 0 (get_file "AgAC-large") = inr file /\
    trace r =
      [ Called (get_file "AgAC-large");
        Called (download_to_drive file PHOTOS_DIR
                  (sanitize_filename ("photo_7_" +:+ file_id file +:+ ".jpg")));
        Logged INFO
          ("Photo received from seven (7): " +:+
           sanitize_filename ("photo_7_" +:+ file_id file +:+ ".jpg")) ] ++
      [] ++
      [ Called (reply_text 7
                  ("📸 Saved as `" +:+
                   sanitize_filename ("photo_7_" +:+ file_id file +:+ ".jpg") +:+ "`")
                  (Some "Markdown") None) ].
Proof.
  apply (handle_photo_end_to_end ownerless_cfg photo_message
           {| photo_file_id := "AgAC-large" |} 0 (calm 0) 0%nat
           (initial_globals true)).
  - reflexivity.
  - intros i c. exists (ok_response c). reflexivity.
  - reflexivity.
Defined.

Lemma menu_buttons_handled_witness :
  let q := {| query_from := sender7; data := Some "contact" |} in
  dispatch (CallbackUpdate q) = Some Fn.handle_buttons /\
  exists edited,
    calls (trace (run (handle_buttons (CallbackUpdate q)) (calm 0) 0
                    (initial_globals true))) =
      [answer; edit_message_text edited].
Proof.
  apply (menu_buttons_handled (command_message sender7 "menu") (calm 0) 0%nat
           (initial_globals true) 7 "📋 Menu" None
           [[("ℹ About", "about")]; [("📞 Contact", "contact")]]
           "📞 Contact" "contact"
           {| query_from := sender7; data := Some "contact" |}
           (calm 0) 0%nat (initial_globals true)).
  - apply list_elem_of_here.
  - apply list_elem_of_further, list_elem_of_here.
  - reflexivity.
  - exists tt. reflexivity.
Defined.

Lemma update_without_message_fails_witness :
  run (body greeting_cfg Fn.keyword_reply
         (EditedMessageUpdate (text_message "Hello there")))
    (calm 0) 0 (initial_globals true) =
  stop (inl AttributeError) (initial_globals true).
Proof.
  apply (update_without_message_fails greeting_cfg Fn.keyword_reply
           (EditedMessageUpdate (text_message "Hello there"))
           (text_message "Hello there") (calm 0) 0%nat (initial_globals true)).
  - reflexivity.
  - discriminate.
  - intros [Hf _]. discriminate.
Defined.

Lemma edited_toggle_flips_silently_witness :
  dispatch (EditedMessageUpdate (command_message owner42 "toggleforward")) =
    Some Fn.toggleforward /\
  run (process_update scenario_cfg
         (EditedMessageUpdate (command_message owner42 "toggleforward")))
    (calm 0) 0 (initial_globals true) =
    {| outcome := inr tt;
       globals_after :=
         set_AUTO_FORWARD (negb (AUTO_FORWARD (initial_globals true)))
           (initial_globals true);
       trace := [Logged ERROR "Bot error:"] |}.
Proof.
  apply (edited_toggle_flips_silently scenario_cfg
           (command_message owner42 "toggleforward") "toggleforward"
           (calm 0) 0%nat (initial_globals true));
    reflexivity.
Defined.

End FurtherScenarios.

Section InvalidPattern.

#[local] Existing Instance unclosed_group_lib.

Lemma keyword_invalid_pattern_witness :
  let m := text_message "Hello there" in
  let r := run (keyword_reply broken_cfg (MessageUpdate m)) (calm 0) 0
             (initial_globals true) in
  outcome r = inl (ReError "(") /\ calls (trace r) = [] /\
  globals_after r = initial_globals true /\
  searches (trace r) =
    (fun e => (e.1, str_lower (default "" (text m)))) <$>
      ([("bye", ["see you"])] ++ [("(", ["oops"])]).
Proof.
  apply (keyword_invalid_pattern broken_cfg (text_message "Hello there")
           [("bye", ["see you"])] [("hello", ["hi!"])] "(" ["oops"]
           (calm 0) 0%nat (initial_globals true)).
  - reflexivity.
  - intros p rs Hin. apply list_elem_of_singleton in Hin. injection Hin as -> ->.
    reflexivity.
  - reflexivity.
Defined.

End InvalidPattern.
